(** * Job lifecycle and callback authorisation of the job processor backend

    A shallow embedding of [backend/src/models/Job.ts],
    [backend/src/middleware/auth.ts] and [backend/src/routes/jobs.ts].

    - JavaScript strings are sequences of UTF-16 code units ([list N]).
    - A request body field is a [JsValue]: the handlers test truthiness and
      [typeof], so the value space of JSON is kept.
    - The MongoDB collection is a finite map from [_id] to the job document.
    - A route handler is a computation in a small state-and-exception monad
      over the [World]: the collection, the log of model calls and the
      timers set with [setTimeout].

    The first part holds the definitions, the second part the properties. *)

From Stdlib Require Import ZArith NArith QArith List Ascii String Lia.
From stdpp Require Import gmap list sorting.
From Equations Require Import Equations.

Local Open Scope Z_scope.

(** * Part I: the program *)

(** ** JavaScript values *)

Definition jsstring : Type := list N.

(** A string literal of the source, as code units. *)
Definition lit (s : string) : jsstring :=
  map N_of_ascii (list_ascii_of_string s).

(** [s.length] *)
Definition js_length (s : jsstring) : Z := Z.of_nat (length s).

(** What [express.json()] can put in a body field, plus [undefined] for a
    field that is absent. Arrays and objects are only ever tested for
    truthiness and type, so their content is not kept. *)
Inductive JsValue : Type :=
| JUndefined
| JNull
| JBool (b : bool)
| JNum (q : Q)
| JStr (s : jsstring)
| JObject.

(** [!!v] *)
Definition truthy (v : JsValue) : bool :=
  match v with
  | JUndefined | JNull => false
  | JBool b => b
  | JNum q => negb (Qnum q =? 0)
  | JStr s => negb (bool_decide (s = []))
  | JObject => true
  end.

(** ECMAScript [WhiteSpace] and [LineTerminator] code units, the ones
    [String.prototype.trim] strips. *)
Definition isWhiteSpace (c : N) : bool :=
  ((c =? 0x09) || (c =? 0x0A) || (c =? 0x0B) || (c =? 0x0C) || (c =? 0x0D)
   || (c =? 0x20) || (c =? 0xA0) || (c =? 0x1680)
   || ((0x2000 <=? c) && (c <=? 0x200A))
   || (c =? 0x2028) || (c =? 0x2029) || (c =? 0x202F) || (c =? 0x205F)
   || (c =? 0x3000) || (c =? 0xFEFF))%N.

Fixpoint trimStart (s : jsstring) : jsstring :=
  match s with
  | c :: s' => if isWhiteSpace c then trimStart s' else s
  | [] => []
  end.

Definition trimEnd (s : jsstring) : jsstring := rev (trimStart (rev s)).

(** [s.trim()] *)
Definition trim (s : jsstring) : jsstring := trimEnd (trimStart s).

(** [a || b] on an environment variable and a default. *)
Definition env_or (v : option jsstring) (dflt : jsstring) : jsstring :=
  match v with
  | Some s => if truthy (JStr s) then s else dflt
  | None => dflt
  end.

(** ** models/Job.ts *)

Inductive JobStatus : Type := PENDING | COMPLETED | FAILED.

(** The identifier of a document, 12 bytes read as a number, and a date in
    milliseconds. *)
Abbreviation ObjectId := N.
Abbreviation Date := Z.

(** [IJob]: [result] is [null] (here [None]) by the schema default. *)
Record IJob : Type := mkJob {
  _id : ObjectId;
  prompt : jsstring;
  status : JobStatus;
  result : option jsstring;
  createdAt : Date;
  updatedAt : Date
}.

(** [jobSchema.prompt]: [required: true, minlength: 1, maxlength: 5000].
    For a string, [required] fails on the empty string. *)
Definition jobSchema_prompt (p : jsstring) : bool :=
  negb (bool_decide (p = [])) && (1 <=? js_length p) && (js_length p <=? 5000).

(** ** The platform the backend runs on *)

(** [process.env]: a variable is unset or holds a string. *)
Class ProcessEnv : Type := {
  env_WEBHOOK_SECRET : option jsstring
}.

(** The parts of Mongoose and of the BSON driver the routes rely on and
    that this repository does not define: the cast of a value to the
    [_id] type and of a non-string value to the [String] schema type
    ([None] is a [CastError]), and the rendering of an [ObjectId]. *)
Class Mongoose : Type := {
  castObjectId : JsValue -> option ObjectId;
  castNonString : JsValue -> option jsstring;
  toString : ObjectId -> jsstring
}.

(** What one request sees of the outside: the clock read by the
    [timestamps] option, the identifier the driver generates for a new
    document, and whether the storage round-trip goes through. *)
Record Ctx : Type := mkCtx {
  now : Date;
  newObjectId : ObjectId;
  dbUp : bool
}.

(** ** The world and the handler monad *)

Inductive ModelCall : Type :=
| CallCreate
| CallFindByIdAndUpdate
| CallFindById
| CallFind.

(** [setTimeout(cb, delay)] where [cb] is the mock worker's closure over
    [jobId]. *)
Record Timer : Type := mkTimer {
  timer_delay : Z;
  timer_jobId : jsstring
}.

Record World : Type := mkWorld {
  db : gmap N IJob;
  calls : list ModelCall;
  timers : list Timer
}.

Definition emptyWorld : World := mkWorld ∅ [] [].

Inductive Exn : Type :=
| ValidationFailed
| CastError
| DuplicateKey
| StorageError.

Inductive Outcome (A : Type) : Type :=
| Ret (a : A)
| Throw (e : Exn).
Arguments Ret {A} a.
Arguments Throw {A} e.

Definition M (A : Type) : Type := World -> Outcome A * World.

Global Instance M_ret : MRet M := fun A (a : A) w => (Ret a, w).

Global Instance M_bind : MBind M := fun A B (k : A -> M B) (m : M A) w =>
  match m w with
  | (Ret a, w') => k a w'
  | (Throw e, w') => (Throw e, w')
  end.

Definition throw {A} (e : Exn) : M A := fun w => (Throw e, w).

(** [try { body } catch (error) { handler }]: what [body] did to the world
    before it threw stays done. *)
Definition try_catch {A} (body : M A) (handler : Exn -> M A) : M A :=
  fun w =>
    match body w with
    | (Ret a, w') => (Ret a, w')
    | (Throw e, w') => handler e w'
    end.

(** The world once a call on the model has been recorded. *)
Definition logged (call : ModelCall) (w : World) : World :=
  mkWorld (db w) (calls w ++ [call]) (timers w).

Definition logCall (c : ModelCall) : M unit :=
  fun w => (Ret tt, logged c w).

Definition readDb : M (gmap N IJob) := fun w => (Ret (db w), w).

Definition writeDb (d : gmap N IJob) : M unit :=
  fun w => (Ret tt, mkWorld d (calls w) (timers w)).

Definition setTimeout (t : Timer) : M unit :=
  fun w => (Ret tt, mkWorld (db w) (calls w) (timers w ++ [t])).

(** A storage round-trip: it throws when the database cannot be reached. *)
Definition roundTrip (c : Ctx) : M unit :=
  if dbUp c then mret tt else throw StorageError.

(** ** The [Job] model: what Mongoose does for the schema of [Job.ts] *)

Section Model.
Context {mongoose : Mongoose}.

(** The cast to the schema type [String] keeps a string as it is. *)
Definition castString (v : JsValue) : option jsstring :=
  match v with
  | JStr s => Some s
  | _ => castNonString v
  end.

(** [Job.create({ prompt, status })]: the document gets a new [_id], the
    default [result: null] and, by [timestamps: true], the same
    [createdAt] and [updatedAt]; the schema validators run before the
    insert; [_id] is unique in the collection. *)
Definition Job_create (c : Ctx) (p : jsstring) (st : JobStatus) : M IJob :=
  logCall CallCreate ;;
  if negb (jobSchema_prompt p) then throw ValidationFailed
  else
    roundTrip c ;;
    d ← readDb ;
    match d !! newObjectId c with
    | Some _ => throw DuplicateKey
    | None =>
        let job := mkJob (newObjectId c) p st None (now c) (now c) in
        writeDb (<[newObjectId c := job]> d) ;;
        mret job
    end.

(** [Job.findByIdAndUpdate(id, { status, result }, { new: true })]: one
    update of one document, which sets both fields and, by
    [timestamps: true], [updatedAt]; validators do not run on updates;
    the answer is the document after the update, or [null]. *)
Definition Job_findByIdAndUpdate (c : Ctx) (id : JsValue) (st : JobStatus)
    (res : JsValue) : M (option IJob) :=
  logCall CallFindByIdAndUpdate ;;
  match castObjectId id, castString res with
  | Some oid, Some r =>
      roundTrip c ;;
      d ← readDb ;
      match d !! oid with
      | None => mret None
      | Some job =>
          let job' :=
            mkJob (_id job) (prompt job) st (Some r) (createdAt job) (now c) in
          writeDb (<[oid := job']> d) ;;
          mret (Some job')
      end
  | _, _ => throw CastError
  end.

(** [Job.findById(id)] *)
Definition Job_findById (c : Ctx) (id : JsValue) : M (option IJob) :=
  logCall CallFindById ;;
  match castObjectId id with
  | Some oid =>
      roundTrip c ;;
      d ← readDb ;
      mret (d !! oid)
  | None => throw CastError
  end.

(** [sort({ createdAt: -1 })]: the later document comes first. *)
Definition createdAt_desc (a b : IJob) : Prop := createdAt b <= createdAt a.

Global Instance createdAt_desc_dec a b : Decision (createdAt_desc a b).
Proof. unfold createdAt_desc. apply _. Defined.

(** [Job.find().sort({ createdAt: -1 })] *)
Definition Job_find_sorted (c : Ctx) : M (list IJob) :=
  logCall CallFind ;;
  roundTrip c ;;
  d ← readDb ;
  mret (merge_sort createdAt_desc (snd <$> map_to_list d)).

End Model.

(** ** HTTP requests and responses *)

(** The JSON object a route answers with for a job. A key the route does
    not write is [None]; [view_result] is [Some None] for [result: null]. *)
Record JobView : Type := mkView {
  view_id : ObjectId;
  view_prompt : jsstring;
  view_status : JobStatus;
  view_result : option (option jsstring);
  view_createdAt : option Date;
  view_updatedAt : option Date
}.

Inductive ResBody : Type :=
| ErrorBody (error : jsstring)
| JobBody (v : JobView)
| JobsBody (vs : list JobView).

Record Response : Type := mkResponse {
  statusCode : Z;
  body : ResBody
}.

(** [res.status(code).json({ error })] *)
Definition errorResponse (code : Z) (error : string) : Response :=
  mkResponse code (ErrorBody (lit error)).

(** The view [POST /jobs] answers with: [id, prompt, status, createdAt]. *)
Definition createdView (job : IJob) : JobView :=
  mkView (_id job) (prompt job) (status job) None (Some (createdAt job)) None.

(** The view the callback route answers with:
    [id, prompt, status, result, updatedAt]. *)
Definition updatedView (job : IJob) : JobView :=
  mkView (_id job) (prompt job) (status job) (Some (result job))
         None (Some (updatedAt job)).

(** The view the read routes answer with: every field of the document. *)
Definition fullView (job : IJob) : JobView :=
  mkView (_id job) (prompt job) (status job) (Some (result job))
         (Some (createdAt job)) (Some (updatedAt job)).

(** The request of the callback route: the [x-webhook-secret] header,
    the two body fields, and the flag the middleware sets. *)
Record AuthenticatedRequest : Type := mkCallbackReq {
  header_x_webhook_secret : option jsstring;
  body_jobId : JsValue;
  body_result : JsValue;
  isWebhook : option bool
}.

Inductive Request : Type :=
| PostJobs (body_prompt : JsValue)
| PostCallback (req : AuthenticatedRequest)
| GetJob (id : jsstring)
| GetJobs.

(** ** middleware/auth.ts *)

Section Auth.
Context {penv : ProcessEnv}.

Definition SHARED_SECRET : jsstring :=
  env_or env_WEBHOOK_SECRET (lit "dev-secret-key").

Definition unauthorized : Response :=
  errorResponse 401 "Unauthorized: Invalid or missing webhook secret".

(** [req.headers['x-webhook-secret']]: a string, or [undefined]. *)
Definition header_value (h : option jsstring) : JsValue :=
  match h with
  | Some s => JStr s
  | None => JUndefined
  end.

Definition validateWebhookSecret (req : AuthenticatedRequest)
    (next : AuthenticatedRequest -> M Response) : M Response :=
  let secret := header_x_webhook_secret req in
  if negb (truthy (header_value secret))
     || negb (bool_decide (secret = Some SHARED_SECRET))
  then mret unauthorized
  else
    next (mkCallbackReq (header_x_webhook_secret req) (body_jobId req)
                        (body_result req) (Some true)).

End Auth.

(** ** routes/jobs.ts *)

Section Routes.
Context {penv : ProcessEnv} {mongoose : Mongoose}.

Definition WEBHOOK_SECRET : jsstring :=
  env_or env_WEBHOOK_SECRET (lit "dev-secret-key").

(** Mock n8n callback: the route only sets the timer. *)
Definition simulateN8nCallback (jobId : jsstring) : M unit :=
  setTimeout (mkTimer 5000 jobId).

(** The request the mock worker's closure sends when its timer fires;
    [mockResult] is the JSON text it builds then. *)
Definition mockCallback (mockResult : jsstring) (t : Timer)
    : AuthenticatedRequest :=
  mkCallbackReq (Some WEBHOOK_SECRET) (JStr (timer_jobId t))
                (JStr mockResult) None.

(** [POST /jobs] *)
Definition post_jobs (c : Ctx) (body_prompt : JsValue) : M Response :=
  try_catch
    (match body_prompt with
     | JStr p =>
         if negb (truthy (JStr p)) || (js_length (trim p) =? 0)
         then
           mret (errorResponse 400
             "Invalid request: prompt is required and must be a non-empty string")
         else
           job ← Job_create c (trim p) PENDING ;
           simulateN8nCallback (toString (_id job)) ;;
           mret (mkResponse 201 (JobBody (createdView job)))
     | _ =>
         mret (errorResponse 400
           "Invalid request: prompt is required and must be a non-empty string")
     end)
    (fun _ => mret (errorResponse 500 "Failed to create job")).

(** The handler of [POST /jobs/webhook/callback], behind the middleware. *)
Definition webhook_callback (c : Ctx) (req : AuthenticatedRequest)
    : M Response :=
  try_catch
    (if negb (truthy (body_jobId req)) || negb (truthy (body_result req))
     then
       mret (errorResponse 400 "Invalid request: jobId and result are required")
     else
       found ← Job_findByIdAndUpdate c (body_jobId req) COMPLETED
                                     (body_result req) ;
       match found with
       | None => mret (errorResponse 404 "Job not found")
       | Some job => mret (mkResponse 200 (JobBody (updatedView job)))
       end)
    (fun _ => mret (errorResponse 500 "Failed to update job")).

(** [router.post('/webhook/callback', validateWebhookSecret, handler)] *)
Definition post_webhook_callback (c : Ctx) (req : AuthenticatedRequest)
    : M Response :=
  validateWebhookSecret req (webhook_callback c).

(** [GET /jobs/:id] *)
Definition get_job (c : Ctx) (id : jsstring) : M Response :=
  try_catch
    (found ← Job_findById c (JStr id) ;
     match found with
     | None => mret (errorResponse 404 "Job not found")
     | Some job => mret (mkResponse 200 (JobBody (fullView job)))
     end)
    (fun _ => mret (errorResponse 500 "Failed to fetch job")).

(** [GET /jobs] *)
Definition get_jobs (c : Ctx) : M Response :=
  try_catch
    (jobs ← Job_find_sorted c ;
     mret (mkResponse 200 (JobsBody (fullView <$> jobs))))
    (fun _ => mret (errorResponse 500 "Failed to fetch jobs")).

(** ** The service as a transition system *)

Definition handle (c : Ctx) (r : Request) : M Response :=
  match r with
  | PostJobs p => post_jobs c p
  | PostCallback req => post_webhook_callback c req
  | GetJob id => get_job c id
  | GetJobs => get_jobs c
  end.

(** The world after a request. *)
Definition after (c : Ctx) (r : Request) (w : World) : World :=
  snd (handle c r w).

(** The world after the requests [rs], served first to last, each in its
    own context. The service starts from [emptyWorld]. *)
Definition afterAll (rs : list (Ctx * Request)) (w : World) : World :=
  foldl (fun w' cr => after cr.1 cr.2 w') w rs.

End Routes.

(** ** Requests in flight *)

(** Node serves requests concurrently: a handler runs up to its one [await]
    on the model, the database applies that one operation to one document
    at a time, and the handler answers from what the operation returned.
    A request is therefore first in flight and later served, in any order
    with respect to the other requests in flight. *)

Record System : Type := mkSystem {
  world : World;
  inflight : list Request;
  answered : list (Request * Response)
}.

Definition startSystem : System := mkSystem emptyWorld [] [].

(** A request arrives, or the [n]-th request in flight gets its model
    operation done, in the context [c], and is answered. *)
Inductive Event : Type :=
| Arrive (r : Request)
| Serve (c : Ctx) (n : nat).

Section Concurrent.
Context {penv : ProcessEnv} {mongoose : Mongoose}.

Definition sys_step (s : System) (e : Event) : System :=
  match e with
  | Arrive r => mkSystem (world s) (inflight s ++ [r]) (answered s)
  | Serve c n =>
      match inflight s !! n with
      | Some r =>
          match handle c r (world s) with
          | (Ret res, w') =>
              mkSystem w' (delete n (inflight s)) (answered s ++ [(r, res)])
          | (Throw _, w') =>
              mkSystem w' (delete n (inflight s)) (answered s)
          end
      | None => s
      end
  end.

(** The system after a schedule of arrivals and services. *)
Definition run (schedule : list Event) : System :=
  foldl sys_step startSystem schedule.

End Concurrent.

(** ** The vocabulary of the properties *)



(** The document [POST /jobs] stores for the prompt [s]. *)
Definition newJob (c : Ctx) (s : jsstring) : IJob :=
  mkJob (newObjectId c) (trim s) PENDING None (now c) (now c).

(** The document a completion at time [t] with the result [r] leaves in the
    place of [job]. *)
Definition completed (job : IJob) (r : jsstring) (t : Date) : IJob :=
  mkJob (_id job) (prompt job) COMPLETED (Some r) (createdAt job) t.

(** A document as the routes leave it: pending without a result, or
    completed with one. *)
Definition job_ok (job : IJob) : Prop :=
  (status job = PENDING /\ result job = None)
  \/ (status job = COMPLETED /\ exists x, result job = Some x).

Definition db_ok (d : gmap N IJob) : Prop :=
  forall oid job, d !! oid = Some job -> job_ok job.

(** A view is torn when it shows a completed job without its result or a
    pending job with one. *)
Definition consistentView (v : JobView) : Prop :=
  match view_status v with
  | COMPLETED => exists r, view_result v = Some (Some r)
  | PENDING => view_result v = None \/ view_result v = Some None
  | FAILED => True
  end.

Definition consistentResponse (res : Response) : Prop :=
  match body res with
  | ErrorBody _ => True
  | JobBody v => consistentView v
  | JobsBody vs => Forall consistentView vs
  end.

(** An authorised callback for the job [job] of the collection, stored
    under [oid], with the non-empty result string [r], while the database
    answers. *)
Record completes {penv : ProcessEnv} {mongoose : Mongoose}
    (c : Ctx) (req : AuthenticatedRequest) (w : World)
    (oid : ObjectId) (job : IJob) (r : jsstring) : Prop := {
  completes_secret : header_x_webhook_secret req = Some SHARED_SECRET;
  completes_jobId : truthy (body_jobId req) = true;
  completes_cast : castObjectId (body_jobId req) = Some oid;
  completes_job : db w !! oid = Some job;
  completes_result : body_result req = JStr r;
  completes_nonempty : r <> [];
  completes_db : dbUp c = true
}.


(** What [POST /jobs] does, by cases on the body and the storage. *)
Inductive CreateOutcome {mongoose : Mongoose} (c : Ctx) (p : JsValue) (w : World)
    : Response -> World -> Prop :=
| created s :
    p = JStr s ->
    1 <= js_length (trim s) <= 5000 ->
    dbUp c = true ->
    db w !! newObjectId c = None ->
    CreateOutcome c p w
      (mkResponse 201 (JobBody (createdView (newJob c s))))
      (mkWorld (<[newObjectId c := newJob c s]> (db w)) (calls w ++ [CallCreate])
               (timers w ++ [mkTimer 5000 (toString (newObjectId c))]))
| refused_by_route :
    (forall s, p = JStr s -> trim s = []) ->
    CreateOutcome c p w
      (errorResponse 400
         "Invalid request: prompt is required and must be a non-empty string")
      w
| failed_in_create s :
    p = JStr s ->
    5000 < js_length (trim s) \/ dbUp c = false
      \/ is_Some (db w !! newObjectId c) ->
    CreateOutcome c p w (errorResponse 500 "Failed to create job")
                  (logged CallCreate w).

(** What one request can do to the collection: nothing, insert the new
    pending job under an identifier not yet in use, or replace one document
    by its completed version. *)
Inductive DbChange {penv : ProcessEnv} {mongoose : Mongoose}
    (c : Ctx) (r : Request) (w : World) : gmap N IJob -> Prop :=
| db_same : DbChange c r w (db w)
| db_created s :
    r = PostJobs (JStr s) ->
    db w !! newObjectId c = None ->
    DbChange c r w (<[newObjectId c := newJob c s]> (db w))
| db_completed req oid job x :
    r = PostCallback req ->
    header_x_webhook_secret req = Some SHARED_SECRET ->
    castObjectId (body_jobId req) = Some oid ->
    castString (body_result req) = Some x ->
    db w !! oid = Some job ->
    DbChange c r w (<[oid := completed job x (now c)]> (db w)).

(** ** An instance of the platform, to run the routes on concrete requests *)

Definition hexDigit (d : N) : N :=
  (if d <? 10 then 48 + d else 87 + d)%N.

Fixpoint toHex (digits : nat) (x : N) (acc : jsstring) : jsstring :=
  match digits with
  | O => acc
  | S n => toHex n (x / 16)%N (hexDigit (x mod 16)%N :: acc)
  end.

(** The 24 hexadecimal digits of a 12-byte identifier. *)
Definition toHexString (oid : ObjectId) : jsstring := toHex 24 oid [].

Definition hexValue (c : N) : option N :=
  (if (48 <=? c) && (c <=? 57) then Some (c - 48)
   else if (97 <=? c) && (c <=? 102) then Some (c - 87)
   else if (65 <=? c) && (c <=? 70) then Some (c - 55)
   else None)%N.

Fixpoint fromHex (s : jsstring) (acc : N) : option N :=
  match s with
  | [] => Some acc
  | c :: s' =>
      match hexValue c with
      | Some d => fromHex s' (16 * acc + d)%N
      | None => None
      end
  end.

Definition hexObjectId (v : JsValue) : option ObjectId :=
  match v with
  | JStr s => if (length s =? 24)%nat then fromHex s 0%N else None
  | _ => None
  end.

(** Identifiers are written as 24 hexadecimal digits; nothing but a string
    is cast to a string. *)
Definition hexMongoose : Mongoose :=
  {| castObjectId := hexObjectId;
     castNonString := fun _ => None;
     toString := toHexString |}.

(** No [WEBHOOK_SECRET] in the environment. *)
Definition devEnv : ProcessEnv := {| env_WEBHOOK_SECRET := None |}.

(** [WEBHOOK_SECRET=s3cret] *)
Definition prodEnv : ProcessEnv := {| env_WEBHOOK_SECRET := Some (lit "s3cret") |}.

(** ** The running examples *)

Definition callbackReq (secret : option jsstring) (jobId result : JsValue)
    : AuthenticatedRequest :=
  mkCallbackReq secret jobId result None.

(** A collection with the single job [1], still pending. *)
Definition job1 : IJob := mkJob 1%N (lit "summarize X") PENDING None 1000 1000.
Definition world1 : World := mkWorld {[ 1%N := job1 ]} [CallCreate] [].
Definition id1 : jsstring := toHexString 1%N.

(** Job [1] once completed with the result [first]. *)
Definition job1first : IJob := completed job1 (lit "first") 2000.
Definition world2 : World :=
  mkWorld {[ 1%N := job1first ]} [CallCreate; CallFindByIdAndUpdate] [].

Definition ctx2 : Ctx := mkCtx 2000 2%N true.
Definition ctx3 : Ctx := mkCtx 3000 3%N true.

(** A callback for job [1] with the default secret. *)
Definition goodCallback (r : jsstring) : AuthenticatedRequest :=
  callbackReq (Some (lit "dev-secret-key")) (JStr id1) (JStr r).

(** The same callback with a secret that is not the configured one. *)
Definition wrongSecretCallback : AuthenticatedRequest :=
  callbackReq (Some (lit "wrong")) (JStr id1) (JStr (lit "done")).


(** The creation of job [1] and two callbacks for it. *)
Definition createX : Ctx * Request :=
  (mkCtx 1000 1%N true, PostJobs (JStr (lit "summarize X"))).
Definition completeFirst : Ctx * Request :=
  (ctx2, PostCallback (goodCallback (lit "first"))).
Definition completeSecond : Ctx * Request :=
  (ctx3, PostCallback (goodCallback (lit "second"))).

(** A prompt of 5001 letters [a]. *)
Definition overlongPrompt : jsstring := repeat 0x61%N (Z.to_nat 5001).

(** Jobs A, B and C, created in this order; a listing afterwards. *)
Definition ctxA : Ctx := mkCtx 1000 1%N true.
Definition ctxB : Ctx := mkCtx 1001 2%N true.
Definition ctxList : Ctx := mkCtx 5000 4%N true.


(** Job [1] created and nothing else in flight. *)
Definition createdSchedule : list Event :=
  [Arrive (PostJobs (JStr (lit "summarize X"))); Serve (mkCtx 1000 1%N true) 0].

(** A read and a callback for job [1] in flight together, served in either
    order. *)
Definition raceCallbackFirst : list Event :=
  [Arrive (PostJobs (JStr (lit "summarize X"))); Serve (mkCtx 1000 1%N true) 0;
   Arrive (GetJob id1); Arrive (PostCallback (goodCallback (lit "done")));
   Serve ctx2 1; Serve (mkCtx 2001 3%N true) 0].

Definition raceReadFirst : list Event :=
  [Arrive (PostJobs (JStr (lit "summarize X"))); Serve (mkCtx 1000 1%N true) 0;
   Arrive (GetJob id1); Arrive (PostCallback (goodCallback (lit "done")));
   Serve ctx2 0; Serve (mkCtx 2001 3%N true) 0].

(** ** The mock worker's closure (routes/jobs.ts, [simulateN8nCallback]) *)

Definition isLeadSurrogate (c : N) : bool := ((0xD800 <=? c) && (c <=? 0xDBFF))%N.
Definition isTrailSurrogate (c : N) : bool := ((0xDC00 <=? c) && (c <=? 0xDFFF))%N.

(** [\uXXXX], four lower-case hexadecimal digits. *)
Definition unicodeEscape (c : N) : jsstring := [92; 117]%N ++ toHex 4 c [].

(** The characters of a string as [JSON.stringify] writes them: the short
    escapes, [\uXXXX] for the other control characters and for a surrogate
    without its partner, and every other character as it is. *)
Fixpoint quoteJSONChars (s : jsstring) : jsstring :=
  match s with
  | [] => []
  | c :: s' =>
      if (c =? 8)%N then [92; 98]%N ++ quoteJSONChars s'
      else if (c =? 9)%N then [92; 116]%N ++ quoteJSONChars s'
      else if (c =? 10)%N then [92; 110]%N ++ quoteJSONChars s'
      else if (c =? 12)%N then [92; 102]%N ++ quoteJSONChars s'
      else if (c =? 13)%N then [92; 114]%N ++ quoteJSONChars s'
      else if (c =? 34)%N then [92; 34]%N ++ quoteJSONChars s'
      else if (c =? 92)%N then [92; 92]%N ++ quoteJSONChars s'
      else if (c <? 32)%N then unicodeEscape c ++ quoteJSONChars s'
      else if isLeadSurrogate c then
        match s' with
        | d :: s'' =>
            if isTrailSurrogate d then c :: d :: quoteJSONChars s''
            else unicodeEscape c ++ quoteJSONChars s'
        | [] => unicodeEscape c
        end
      else if isTrailSurrogate c then unicodeEscape c ++ quoteJSONChars s'
      else c :: quoteJSONChars s'
  end.

(** [JSON.stringify(s)] for a string [s]. *)
Definition JSON_stringify_string (s : jsstring) : jsstring :=
  [34%N] ++ quoteJSONChars s ++ [34%N].

(** [JSON.stringify({ success: true, message: `Processed job: ${jobId}`,
    timestamp })], where [timestamp] is the [toISOString()] of the time the
    timer fires. *)
Definition mockResult (jobId timestamp : jsstring) : jsstring :=
  lit "{" ++ JSON_stringify_string (lit "success") ++ lit ":true,"
  ++ JSON_stringify_string (lit "message") ++ lit ":"
  ++ JSON_stringify_string (lit "Processed job: " ++ jobId) ++ lit ","
  ++ JSON_stringify_string (lit "timestamp") ++ lit ":"
  ++ JSON_stringify_string timestamp ++ lit "}".

(** The request the closure of the timer [t] posts to
    [/jobs/webhook/callback] when it fires at [timestamp]. *)
Definition firedCallback {penv : ProcessEnv} (timestamp : jsstring) (t : Timer)
    : AuthenticatedRequest :=
  mockCallback (mockResult (timer_jobId t) timestamp) t.

(** ** index.ts: [startServer] *)

(** What the bootstrap does that can be seen from outside: it waits, tries
    to connect, starts to listen, or ends the process. *)
Inductive BootEvent : Type :=
| Wait (ms : Z)
| Connect
| Listen
| Exit (code : Z).

Definition maxRetries : Z := 30.

(** [Math.min(1000 * Math.pow(2, retries - 1), 30000)] *)
Definition backoffDelay (retries : Z) : Z :=
  Z.min (1000 * 2 ^ (retries - 1)) 30000.

(** The [while (retries < maxRetries)] loop. [connectOk k] tells whether the
    attempt made after [k] failures succeeds. *)
Equations? connectLoop (connectOk : Z -> bool) (retries : Z) : list BootEvent
  by wf (Z.to_nat (maxRetries - retries)) lt :=
connectLoop connectOk retries with Z_lt_dec retries maxRetries := {
  | left _ =>
      Connect ::
      (if connectOk retries then [Listen]
       else
         (if retries + 1 <? maxRetries
          then [Wait (backoffDelay (retries + 1))]
          else [])
         ++ connectLoop connectOk (retries + 1));
  | right _ => [Exit 1] }.
Proof. lia. Qed.

Definition startServer (connectOk : Z -> bool) : list BootEvent :=
  Wait 30000 :: connectLoop connectOk 0.

(** The time spent waiting, and the number of connection attempts. *)
Definition totalWait (trace : list BootEvent) : Z :=
  foldr (fun e acc => match e with Wait ms => ms + acc | _ => acc end) 0 trace.

Definition attempts (trace : list BootEvent) : Z :=
  foldr (fun e acc => match e with Connect => 1 + acc | _ => acc end) 0 trace.

(** The attempts that fail after [from], [from + 1], ... failures, [n] of
    them, each followed by its wait. *)
Fixpoint failedAttempts (n : nat) (from : Z) : list BootEvent :=
  match n with
  | O => []
  | S n' => Connect :: Wait (backoffDelay (from + 1)) :: failedAttempts n' (from + 1)
  end.

(** ** frontend/src/App.tsx: the state of [App] and its two handlers *)

Module App.

(** The five [useState] cells. *)
Record State : Type := mkState {
  jobs : list JobView;
  prompt : jsstring;
  isLoading : bool;
  error : option jsstring;
  networkError : bool
}.

Definition setJobs (v : list JobView) (s : State) : State :=
  mkState v (prompt s) (isLoading s) (error s) (networkError s).
Definition setPrompt (v : jsstring) (s : State) : State :=
  mkState (jobs s) v (isLoading s) (error s) (networkError s).
Definition setIsLoading (v : bool) (s : State) : State :=
  mkState (jobs s) (prompt s) v (error s) (networkError s).
Definition setError (v : option jsstring) (s : State) : State :=
  mkState (jobs s) (prompt s) (isLoading s) v (networkError s).
Definition setNetworkError (v : bool) (s : State) : State :=
  mkState (jobs s) (prompt s) (isLoading s) (error s) v.

(** How an awaited [fetch] and its [response.json()] end for the handler:
    one of them threw, the response was not [ok], or it was and carried
    [data]. *)
Inductive Fetched (A : Type) : Type :=
| Threw
| NotOk
| Ok (data : A).
Arguments Threw {A}.
Arguments NotOk {A}.
Arguments Ok {A} data.

(** [response.ok] *)
Definition responseOk (res : Response) : bool :=
  (200 <=? statusCode res) && (statusCode res <=? 299).

(** What the handler gets from [await fetch(...)], [response.ok] and
    [await response.json()] when the service answers [res]: a status
    outside 200..299 makes it throw; otherwise the body is the job, or the
    list of jobs. [None]: an answer in 200..299 that carries something
    else, which the typed state cannot hold. *)
Definition fetchedJob (res : Response) : option (Fetched JobView) :=
  if responseOk res then
    match body res with
    | JobBody v => Some (Ok v)
    | _ => None
    end
  else Some NotOk.

Definition fetchedJobs (res : Response) : option (Fetched (list JobView)) :=
  if responseOk res then
    match body res with
    | JobsBody vs => Some (Ok vs)
    | _ => None
    end
  else Some NotOk.

(** The body [handleSubmit] posts, or [None] when it returns before the
    fetch. [captured] is the state of the render the handler closes over. *)
Definition handleSubmit_body (captured : State) : option jsstring :=
  if negb (truthy (JStr (trim (prompt captured)))) then None
  else Some (trim (prompt captured)).

(** The state updates of [handleSubmit] up to its [await]. *)
Definition handleSubmit_begin (captured : State) (s : State) : State :=
  if negb (truthy (JStr (trim (prompt captured))))
  then setError (Some (lit "Please enter a prompt")) s
  else setError None (setIsLoading true s).

(** The state updates of [handleSubmit] once the fetch has ended. *)
Definition handleSubmit_end (captured : State) (out : Fetched JobView)
    (s : State) : State :=
  match out with
  | Ok newJob =>
      setIsLoading false
        (setError None (setPrompt [] (setJobs (newJob :: jobs captured) s)))
  | _ =>
      setIsLoading false
        (setError (Some (lit "Failed to create job. Is the backend running?"))
           (setNetworkError true s))
  end.

(** The state updates of [fetchJobs] up to its [await], and after it. *)
Definition fetchJobs_begin (s : State) : State :=
  setError None (setNetworkError false s).

Definition fetchJobs_end (out : Fetched (list JobView)) (s : State) : State :=
  match out with
  | Ok data => setJobs data s
  | _ =>
      setError (Some (lit "Failed to fetch jobs. Is the backend running?"))
        (setNetworkError true s)
  end.

(** [disabled={isLoading || networkError}] on the text area and the
    button. *)
Definition formDisabled (s : State) : bool := isLoading s || networkError s.

End App.

(** ** More vocabulary *)

(** A document as [POST /jobs] stores it: under its own [_id], with a
    prompt of 1 to 5000 code units that trimming leaves as it is. *)
Definition stored_ok (k : N) (job : IJob) : Prop :=
  _id job = k
  /\ 1 <= js_length (prompt job) <= 5000
  /\ trim (prompt job) = prompt job.

(** The clock readings of the requests never go back. *)
Definition clockAdvances (rs : list (Ctx * Request)) : Prop :=
  StronglySorted Z.le ((fun cr => now cr.1) <$> rs).

(** The read routes. *)
Definition isRead (r : Request) : bool :=
  match r with
  | GetJob _ | GetJobs => true
  | _ => false
  end.


(** The status codes each route writes. *)
Definition routeCodes (r : Request) : list Z :=
  match r with
  | PostJobs _ => [201; 400; 500]
  | PostCallback _ => [200; 400; 401; 404; 500]
  | GetJob _ => [200; 404; 500]
  | GetJobs => [200; 500]
  end.

(** The driver reads back the identifier it writes, and writes it as a
    non-empty string. *)
Definition writesBack {mongoose : Mongoose} (oid : ObjectId) : Prop :=
  castObjectId (JStr (toString oid)) = Some oid /\ toString oid <> [].

(** A timer that [simulateN8nCallback] has set: 5000 ms, for the
    identifier of a stored document. *)
Definition timer_ok {mongoose : Mongoose} (d : gmap N IJob) (t : Timer) : Prop :=
  timer_delay t = 5000
  /\ exists oid, is_Some (d !! oid) /\ timer_jobId t = toString oid.

(** The answers with status 201 among the answers given so far. *)
Definition created201 (answers : list (Request * Response)) : list (Request * Response) :=
  filter (fun a => statusCode a.2 = 201) answers.

(** What a request does, by cases: a job is created, a job is completed,
    a job or the list is read, or the request is refused with an error
    status and leaves the collection and the timers as they were. *)
Inductive Effect {penv : ProcessEnv} {mongoose : Mongoose}
    (c : Ctx) (r : Request) (w : World) : Response -> World -> Prop :=
| eff_created s :
    r = PostJobs (JStr s) ->
    1 <= js_length (trim s) <= 5000 ->
    dbUp c = true ->
    db w !! newObjectId c = None ->
    Effect c r w
      (mkResponse 201 (JobBody (createdView (newJob c s))))
      (mkWorld (<[newObjectId c := newJob c s]> (db w)) (calls w ++ [CallCreate])
               (timers w ++ [mkTimer 5000 (toString (newObjectId c))]))
| eff_completed req oid job x :
    r = PostCallback req ->
    header_x_webhook_secret req = Some SHARED_SECRET ->
    castObjectId (body_jobId req) = Some oid ->
    castString (body_result req) = Some x ->
    db w !! oid = Some job ->
    Effect c r w
      (mkResponse 200 (JobBody (updatedView (completed job x (now c)))))
      (mkWorld (<[oid := completed job x (now c)]> (db w))
               (calls w ++ [CallFindByIdAndUpdate]) (timers w))
| eff_found id oid job :
    r = GetJob id ->
    castObjectId (JStr id) = Some oid ->
    db w !! oid = Some job ->
    Effect c r w (mkResponse 200 (JobBody (fullView job))) (logged CallFindById w)
| eff_listed :
    r = GetJobs ->
    Effect c r w
      (mkResponse 200 (JobsBody
         (fullView <$> merge_sort createdAt_desc (snd <$> map_to_list (db w)))))
      (logged CallFind w)
| eff_refused code msg w' :
    In code (routeCodes r) ->
    400 <= code ->
    db w' = db w ->
    timers w' = timers w ->
    Effect c r w (errorResponse code msg) w'.

(** ** More running examples *)

(** A clock that goes back between the creation and the completion. *)
Definition completeEarlier : Ctx * Request :=
  (mkCtx 500 2%N true, PostCallback (goodCallback (lit "first"))).

(** The database answers from the third attempt on. *)
Definition thirdAttemptOk (k : Z) : bool := 2 <=? k.

(** A form with a prompt typed in, and one with blanks only. *)
Definition typedForm : App.State :=
  App.mkState [] (lit "  summarize X ") false None false.
Definition blankForm : App.State :=
  App.mkState [] (lit "   ") false None false.

(** * Part II: properties *)

(** ** Strings *)

Lemma lit_dev_secret_nonempty : lit "dev-secret-key" <> [].
Proof. discriminate. Qed.

Lemma js_length_zero_nil (s : jsstring) : (js_length s =? 0) = bool_decide (s = []).
Proof. destruct s; reflexivity. Qed.

Lemma js_length_pos (s : jsstring) : s <> [] -> 1 <= js_length s.
Proof. destruct s; [congruence|]. unfold js_length. simpl length. lia. Qed.

Lemma trimStart_blank s : forallb isWhiteSpace s = true -> trimStart s = [].
Proof.
  induction s as [|c s IH]; simpl; [reflexivity|].
  destruct (isWhiteSpace c); simpl; [exact IH | discriminate].
Qed.

(** A string of white space only trims to the empty string. *)
Lemma trim_blank s : forallb isWhiteSpace s = true -> trim s = [].
Proof. intros Hs. unfold trim. rewrite (trimStart_blank s Hs). reflexivity. Qed.

(** The schema accepts exactly the strings of 1 to 5000 code units. *)
Lemma jobSchema_prompt_spec p :
  jobSchema_prompt p = true <-> 1 <= js_length p <= 5000.
Proof.
  unfold jobSchema_prompt. destruct p as [|c p].
  - split; [discriminate | unfold js_length; simpl; lia].
  - rewrite bool_decide_eq_false_2 by discriminate. simpl negb.
    rewrite andb_true_l, andb_true_iff, !Z.leb_le. reflexivity.
Qed.

Lemma overlongPrompt_length : js_length (trim overlongPrompt) = 5001.
Proof.
  assert (Htrim : trim overlongPrompt = overlongPrompt) by (vm_compute; reflexivity).
  rewrite Htrim. unfold js_length, overlongPrompt. rewrite repeat_length. lia.
Qed.

(** The rendering and the cast of the instance agree. *)
Example hex_round_trip :
  hexObjectId (JStr (toHexString 0x507f1f77bcf86cd799439011%N))
  = Some 0x507f1f77bcf86cd799439011%N.
Proof. vm_compute. reflexivity. Qed.

(** ** The model operations, run *)

Section ModelFacts.
Context {mongoose : Mongoose}.

Lemma Job_create_run c p st w :
  Job_create c p st w =
    if jobSchema_prompt p then
      if dbUp c then
        match db w !! newObjectId c with
        | Some _ => (Throw DuplicateKey, logged CallCreate w)
        | None =>
            let job := mkJob (newObjectId c) p st None (now c) (now c) in
            (Ret job, mkWorld (<[newObjectId c := job]> (db w))
                              (calls w ++ [CallCreate]) (timers w))
        end
      else (Throw StorageError, logged CallCreate w)
    else (Throw ValidationFailed, logged CallCreate w).
Proof.
  unfold Job_create, roundTrip, mbind, M_bind, logCall, readDb, writeDb, throw,
    mret, M_ret, logged.
  simpl. destruct (jobSchema_prompt p); simpl; [|reflexivity].
  destruct (dbUp c); simpl; [|reflexivity].
  destruct (db w !! newObjectId c); reflexivity.
Qed.

Lemma Job_findByIdAndUpdate_run c id st res w :
  Job_findByIdAndUpdate c id st res w =
    match castObjectId id, castString res with
    | Some oid, Some r =>
        if dbUp c then
          match db w !! oid with
          | None => (Ret None, logged CallFindByIdAndUpdate w)
          | Some job =>
              let job' :=
                mkJob (_id job) (prompt job) st (Some r) (createdAt job) (now c) in
              (Ret (Some job'),
               mkWorld (<[oid := job']> (db w))
                       (calls w ++ [CallFindByIdAndUpdate]) (timers w))
          end
        else (Throw StorageError, logged CallFindByIdAndUpdate w)
    | _, _ => (Throw CastError, logged CallFindByIdAndUpdate w)
    end.
Proof.
  unfold Job_findByIdAndUpdate, roundTrip, mbind, M_bind, logCall, readDb,
    writeDb, throw, mret, M_ret, logged.
  simpl. destruct (castObjectId id) as [oid|]; [|reflexivity].
  destruct (castString res) as [r|]; [|reflexivity].
  destruct (dbUp c); simpl; [|reflexivity].
  destruct (db w !! oid); reflexivity.
Qed.

Lemma Job_findById_run c id w :
  Job_findById c id w =
    match castObjectId id with
    | Some oid =>
        if dbUp c then (Ret (db w !! oid), logged CallFindById w)
        else (Throw StorageError, logged CallFindById w)
    | None => (Throw CastError, logged CallFindById w)
    end.
Proof.
  unfold Job_findById, roundTrip, mbind, M_bind, logCall, readDb, throw,
    mret, M_ret, logged.
  simpl. destruct (castObjectId id); [|reflexivity].
  destruct (dbUp c); reflexivity.
Qed.

Lemma Job_find_sorted_run c w :
  Job_find_sorted c w =
    if dbUp c
    then (Ret (merge_sort createdAt_desc (snd <$> map_to_list (db w))),
          logged CallFind w)
    else (Throw StorageError, logged CallFind w).
Proof.
  unfold Job_find_sorted, roundTrip, mbind, M_bind, logCall, readDb, throw,
    mret, M_ret, logged.
  simpl. destruct (dbUp c); reflexivity.
Qed.

End ModelFacts.

Global Instance createdAt_desc_total : Total createdAt_desc.
Proof. intros a b. unfold createdAt_desc. lia. Qed.

Global Instance createdAt_desc_trans : Transitive createdAt_desc.
Proof. intros a b c. unfold createdAt_desc. lia. Qed.

(** ** The routes, run *)

Section RouteFacts.
Context {penv : ProcessEnv} {mongoose : Mongoose}.

(** [jobs.ts] and [auth.ts] read the same variable with the same default. *)
Lemma WEBHOOK_SECRET_is_SHARED_SECRET : WEBHOOK_SECRET = SHARED_SECRET.
Proof. reflexivity. Qed.

Lemma SHARED_SECRET_nonempty : SHARED_SECRET <> [].
Proof.
  unfold SHARED_SECRET, env_or.
  destruct env_WEBHOOK_SECRET as [s|]; [|apply lit_dev_secret_nonempty].
  simpl. case_bool_decide as Hs; simpl; [apply lit_dev_secret_nonempty | exact Hs].
Qed.

(** The middleware's test, as a fact about the header. *)
Lemma secret_test (h : option jsstring) :
  negb (truthy (header_value h)) || negb (bool_decide (h = Some SHARED_SECRET))
    = negb (bool_decide (h = Some SHARED_SECRET)).
Proof.
  destruct h as [s|]; simpl; [|reflexivity].
  case_bool_decide as Hs; simpl; [|reflexivity].
  subst s. rewrite bool_decide_eq_false_2; [reflexivity|].
  intros Heq. apply SHARED_SECRET_nonempty. congruence.
Qed.

Lemma validateWebhookSecret_run req next w :
  validateWebhookSecret req next w =
    if bool_decide (header_x_webhook_secret req = Some SHARED_SECRET)
    then next (mkCallbackReq (header_x_webhook_secret req) (body_jobId req)
                             (body_result req) (Some true)) w
    else (Ret unauthorized, w).
Proof.
  unfold validateWebhookSecret. rewrite secret_test.
  case_bool_decide; reflexivity.
Qed.

(** The request of the mock worker passes the authenticator. *)
Lemma mockCallback_secret mockResult t :
  header_x_webhook_secret (mockCallback mockResult t) = Some SHARED_SECRET.
Proof. reflexivity. Qed.

Lemma post_jobs_run c p w :
  post_jobs c p w =
    match p with
    | JStr s =>
        if bool_decide (trim s = []) then
          (Ret (errorResponse 400
             "Invalid request: prompt is required and must be a non-empty string"), w)
        else if (js_length (trim s) <=? 5000) && dbUp c then
          match db w !! newObjectId c with
          | Some _ =>
              (Ret (errorResponse 500 "Failed to create job"), logged CallCreate w)
          | None =>
              (Ret (mkResponse 201 (JobBody (createdView (newJob c s)))),
               mkWorld (<[newObjectId c := newJob c s]> (db w))
                       (calls w ++ [CallCreate])
                       (timers w ++ [mkTimer 5000 (toString (newObjectId c))]))
          end
        else (Ret (errorResponse 500 "Failed to create job"), logged CallCreate w)
    | _ =>
        (Ret (errorResponse 400
           "Invalid request: prompt is required and must be a non-empty string"), w)
    end.
Proof.
  unfold post_jobs, try_catch. destruct p as [| |b|q|s|]; try reflexivity.
  rewrite js_length_zero_nil.
  assert (Hs : truthy (JStr s) = false -> trim s = []).
  { simpl. case_bool_decide as Hs; [subst; reflexivity | discriminate]. }
  destruct (truthy (JStr s)) eqn:Et; simpl.
  2:{ rewrite (Hs eq_refl). reflexivity. }
  case_bool_decide as Htrim; [reflexivity|].
  unfold mbind, M_bind. rewrite Job_create_run.
  unfold jobSchema_prompt. rewrite bool_decide_eq_false_2 by exact Htrim.
  assert (Hlen : (1 <=? js_length (trim s)) = true).
  { apply Z.leb_le, js_length_pos, Htrim. }
  rewrite Hlen. simpl.
  destruct (js_length (trim s) <=? 5000); simpl; [|reflexivity].
  destruct (dbUp c); simpl; [|reflexivity].
  destruct (db w !! newObjectId c); reflexivity.
Qed.

Lemma webhook_callback_run c req w :
  webhook_callback c req w =
    if negb (truthy (body_jobId req)) || negb (truthy (body_result req)) then
      (Ret (errorResponse 400 "Invalid request: jobId and result are required"), w)
    else
      match castObjectId (body_jobId req), castString (body_result req) with
      | Some oid, Some r =>
          if dbUp c then
            match db w !! oid with
            | None =>
                (Ret (errorResponse 404 "Job not found"),
                 logged CallFindByIdAndUpdate w)
            | Some job =>
                (Ret (mkResponse 200 (JobBody (updatedView (completed job r (now c))))),
                 mkWorld (<[oid := completed job r (now c)]> (db w))
                         (calls w ++ [CallFindByIdAndUpdate]) (timers w))
            end
          else (Ret (errorResponse 500 "Failed to update job"),
                logged CallFindByIdAndUpdate w)
      | _, _ => (Ret (errorResponse 500 "Failed to update job"),
                 logged CallFindByIdAndUpdate w)
      end.
Proof.
  unfold webhook_callback, try_catch.
  destruct (negb (truthy (body_jobId req)) || negb (truthy (body_result req)));
    [reflexivity|].
  unfold mbind, M_bind. rewrite Job_findByIdAndUpdate_run.
  destruct (castObjectId (body_jobId req)) as [oid|]; [|reflexivity].
  destruct (castString (body_result req)) as [r|]; [|reflexivity].
  destruct (dbUp c); [|reflexivity].
  destruct (db w !! oid); reflexivity.
Qed.

Lemma get_job_run c id w :
  get_job c id w =
    match castObjectId (JStr id) with
    | Some oid =>
        if dbUp c then
          match db w !! oid with
          | Some job => (Ret (mkResponse 200 (JobBody (fullView job))),
                         logged CallFindById w)
          | None => (Ret (errorResponse 404 "Job not found"), logged CallFindById w)
          end
        else (Ret (errorResponse 500 "Failed to fetch job"), logged CallFindById w)
    | None => (Ret (errorResponse 500 "Failed to fetch job"), logged CallFindById w)
    end.
Proof.
  unfold get_job, try_catch, mbind, M_bind. rewrite Job_findById_run.
  destruct (castObjectId (JStr id)) as [oid|]; [|reflexivity].
  destruct (dbUp c); [|reflexivity].
  destruct (db w !! oid); reflexivity.
Qed.

Lemma get_jobs_run c w :
  get_jobs c w =
    if dbUp c then
      (Ret (mkResponse 200 (JobsBody
         (fullView <$> merge_sort createdAt_desc (snd <$> map_to_list (db w))))),
       logged CallFind w)
    else (Ret (errorResponse 500 "Failed to fetch jobs"), logged CallFind w).
Proof.
  unfold get_jobs, try_catch, mbind, M_bind. rewrite Job_find_sorted_run.
  destruct (dbUp c); reflexivity.
Qed.

(** Every handler answers: no exception escapes a route. *)
Lemma handle_answers c r w : exists res, fst (handle c r w) = Ret res.
Proof.
  destruct r as [p|req|id|]; simpl.
  - rewrite post_jobs_run. repeat case_match; simpl; eauto.
  - unfold post_webhook_callback. rewrite validateWebhookSecret_run.
    rewrite webhook_callback_run. repeat case_match; simpl; eauto.
  - rewrite get_job_run. repeat case_match; simpl; eauto.
  - rewrite get_jobs_run. repeat case_match; simpl; eauto.
Qed.

(** An authorised request reaches the handler. *)
Lemma authorised_reaches_handler c req w :
  header_x_webhook_secret req = Some SHARED_SECRET ->
  handle c (PostCallback req) w =
    webhook_callback c (mkCallbackReq (header_x_webhook_secret req)
                          (body_jobId req) (body_result req) (Some true)) w.
Proof.
  intros Hsec. simpl. unfold post_webhook_callback.
  rewrite validateWebhookSecret_run.
  rewrite bool_decide_eq_true_2 by exact Hsec. reflexivity.
Qed.

Lemma afterAll_cons rs c r w :
  afterAll ((c, r) :: rs) w = afterAll rs (after c r w).
Proof. reflexivity. Qed.

End RouteFacts.

(** ** Callback authenticator *)

(** C10: the authenticator lets a request through exactly when its
    [x-webhook-secret] header is the effective secret; that secret is the
    [WEBHOOK_SECRET] variable when it is set to a non-empty string and
    ['dev-secret-key'] otherwise, so it is never empty; a request with no
    header or with an empty one is answered 401. *)
Theorem authenticator_accepts_exactly_one_token {penv : ProcessEnv} :
  SHARED_SECRET =
    match env_WEBHOOK_SECRET with
    | Some (c :: s) => c :: s
    | Some [] | None => lit "dev-secret-key"
    end
  /\ SHARED_SECRET <> []
  /\ (forall req next w,
        validateWebhookSecret req next w =
          if bool_decide (header_x_webhook_secret req = Some SHARED_SECRET)
          then next (mkCallbackReq (header_x_webhook_secret req) (body_jobId req)
                                   (body_result req) (Some true)) w
          else (Ret unauthorized, w))
  /\ (forall jobId result flag next w,
        validateWebhookSecret (mkCallbackReq None jobId result flag) next w
          = (Ret unauthorized, w)
        /\ validateWebhookSecret (mkCallbackReq (Some []) jobId result flag) next w
          = (Ret unauthorized, w))
  /\ statusCode unauthorized = 401.
Proof.
  split; [|split; [|split; [|split]]].
  - unfold SHARED_SECRET, env_or. destruct env_WEBHOOK_SECRET as [[|c s]|]; reflexivity.
  - apply SHARED_SECRET_nonempty.
  - intros. apply validateWebhookSecret_run.
  - intros. split; reflexivity.
  - reflexivity.
Qed.

(** With [WEBHOOK_SECRET=s3cret] the default secret is refused and the
    configured one lets the request through to the handler. *)
Example configured_secret_replaces_default :
  @handle prodEnv hexMongoose ctx2
     (PostCallback (goodCallback (lit "done"))) world1
  = (Ret unauthorized, world1)
  /\ fst (@handle prodEnv hexMongoose ctx2
            (PostCallback (callbackReq (Some (lit "s3cret")) (JStr id1)
                                       (JStr (lit "done")))) world1)
     = Ret (mkResponse 200 (JobBody (updatedView (completed job1 (lit "done") 2000)))).
Proof. split; vm_compute; reflexivity. Qed.

(** C3: a callback whose [x-webhook-secret] header is missing or is not the
    shared secret is answered 401 whatever its body; the handler behind the
    middleware is not run (the answer is the same for every handler), no
    call reaches the model and the collection is as before. *)
Theorem bad_secret_never_reaches_complete
    {penv : ProcessEnv} {mongoose : Mongoose} (c : Ctx)
    (req : AuthenticatedRequest) (w : World) :
  header_x_webhook_secret req <> Some SHARED_SECRET ->
  (forall next, validateWebhookSecret req next w = (Ret unauthorized, w))
  /\ handle c (PostCallback req) w = (Ret unauthorized, w)
  /\ db (after c (PostCallback req) w) = db w
  /\ calls (after c (PostCallback req) w) = calls w
  /\ statusCode unauthorized = 401.
Proof.
  intros Hbad.
  assert (Hmw : forall next, validateWebhookSecret req next w = (Ret unauthorized, w)).
  { intros next. rewrite validateWebhookSecret_run.
    rewrite bool_decide_eq_false_2 by exact Hbad. reflexivity. }
  split; [exact Hmw|].
  unfold after. simpl. unfold post_webhook_callback. rewrite Hmw.
  repeat split.
Qed.

Lemma bad_secret_never_reaches_complete_witness :
  header_x_webhook_secret wrongSecretCallback <> Some (@SHARED_SECRET devEnv)
  /\ @handle devEnv hexMongoose ctx2 (PostCallback wrongSecretCallback) world1
       = (Ret unauthorized, world1).
Proof.
  assert (Hbad : header_x_webhook_secret wrongSecretCallback
                 <> Some (@SHARED_SECRET devEnv))
    by (vm_compute; discriminate).
  split; [exact Hbad|].
  apply (@bad_secret_never_reaches_complete devEnv hexMongoose ctx2
           wrongSecretCallback world1 Hbad).
Defined.

(** ** Completion *)

Section Completion.
Context {penv : ProcessEnv} {mongoose : Mongoose}.

Lemma callback_completes c req w oid job r :
  completes c req w oid job r ->
  handle c (PostCallback req) w =
    (Ret (mkResponse 200 (JobBody (updatedView (completed job r (now c))))),
     mkWorld (<[oid := completed job r (now c)]> (db w))
             (calls w ++ [CallFindByIdAndUpdate]) (timers w)).
Proof.
  intros [Hsec Hid Hcast Hjob Hres Hne Hup].
  rewrite (authorised_reaches_handler c req w Hsec), webhook_callback_run. simpl.
  rewrite Hid, Hres, Hcast, Hup, Hjob. simpl.
  rewrite bool_decide_eq_false_2 by exact Hne. reflexivity.
Qed.


(** A [jobId] the driver does not cast to an identifier makes
    [findByIdAndUpdate] throw before any lookup; the route's [catch]
    answers 500. *)
Lemma uncastable_jobId_answers_500 c req w :
  header_x_webhook_secret req = Some SHARED_SECRET ->
  truthy (body_jobId req) = true ->
  truthy (body_result req) = true ->
  castObjectId (body_jobId req) = None ->
  handle c (PostCallback req) w =
    (Ret (errorResponse 500 "Failed to update job"), logged CallFindByIdAndUpdate w).
Proof.
  intros Hsec Hid Hres Hcast.
  rewrite (authorised_reaches_handler c req w Hsec), webhook_callback_run. simpl.
  rewrite Hid, Hres, Hcast. reflexivity.
Qed.

End Completion.






(** C7: a callback for a job that is already in a terminal state is not
    refused: it is answered 200, the status is [COMPLETED] and the stored
    result is the one just supplied, whatever was stored before; the same
    callback once more is answered 200 again and leaves that status and
    result in place. *)
Theorem recompletion_overwrites
    {penv : ProcessEnv} {mongoose : Mongoose} (c c' : Ctx)
    (req : AuthenticatedRequest) (w : World) (oid : ObjectId) (job : IJob)
    (r : jsstring) :
  completes c req w oid job r ->
  status job <> PENDING ->
  dbUp c' = true ->
  fst (handle c (PostCallback req) w) =
    Ret (mkResponse 200 (JobBody (updatedView (completed job r (now c)))))
  /\ db (after c (PostCallback req) w) !! oid = Some (completed job r (now c))
  /\ status (completed job r (now c)) = COMPLETED
  /\ result (completed job r (now c)) = Some r
  /\ fst (handle c' (PostCallback req) (after c (PostCallback req) w)) =
       Ret (mkResponse 200 (JobBody (updatedView (completed job r (now c')))))
  /\ db (after c' (PostCallback req) (after c (PostCallback req) w)) !! oid
     = Some (completed job r (now c')).
Proof.
  intros Hc _ Hup'.
  pose proof (callback_completes c req w oid job r Hc) as E1.
  assert (A1 : db (after c (PostCallback req) w) !! oid
               = Some (completed job r (now c))).
  { unfold after. rewrite E1. simpl. apply lookup_insert_eq. }
  assert (Hc' : completes c' req (after c (PostCallback req) w) oid
                          (completed job r (now c)) r).
  { destruct Hc. split; assumption. }
  pose proof (callback_completes c' req _ oid _ r Hc') as E2.
  split; [rewrite E1; reflexivity|]. split; [exact A1|].
  split; [reflexivity|]. split; [reflexivity|].
  split; [rewrite E2; reflexivity|].
  unfold after at 1. rewrite E2. simpl. apply lookup_insert_eq.
Qed.

Lemma recompletion_overwrites_witness :
  @completes devEnv hexMongoose ctx3 (goodCallback (lit "second")) world2 1%N
             job1first (lit "second")
  /\ status job1first <> PENDING
  /\ result job1first = Some (lit "first")
  /\ db (@after devEnv hexMongoose ctx3 (PostCallback (goodCallback (lit "second")))
                world2) !! 1%N
     = Some (completed job1first (lit "second") 3000).
Proof.
  assert (Hc : @completes devEnv hexMongoose ctx3 (goodCallback (lit "second")) world2
                          1%N job1first (lit "second")).
  { split; try reflexivity. discriminate. }
  assert (Ht : status job1first <> PENDING) by discriminate.
  split; [exact Hc|]. split; [exact Ht|]. split; [reflexivity|].
  apply (@recompletion_overwrites devEnv hexMongoose ctx3 ctx3 _ world2 1%N job1first
           (lit "second") Hc Ht eq_refl).
Defined.

(** ** Creation *)

Section Creation.
Context {penv : ProcessEnv} {mongoose : Mongoose}.

Lemma post_jobs_outcome c p w :
  exists res w', post_jobs c p w = (Ret res, w') /\ CreateOutcome c p w res w'.
Proof.
  rewrite post_jobs_run.
  destruct p as [| |b|q|s|];
    try (eexists _, _; split; [reflexivity|];
         apply refused_by_route; intros s' Hs'; discriminate Hs').
  case_bool_decide as Htrim.
  { eexists _, _; split; [reflexivity|].
    apply refused_by_route. intros s' Hs'. congruence. }
  pose proof (js_length_pos _ Htrim) as Hpos.
  destruct (js_length (trim s) <=? 5000) eqn:Hlen; simpl.
  2:{ apply Z.leb_gt in Hlen. eexists _, _; split; [reflexivity|].
      eapply failed_in_create; [reflexivity | left; exact Hlen]. }
  apply Z.leb_le in Hlen.
  destruct (dbUp c) eqn:Hup.
  2:{ eexists _, _; split; [reflexivity|].
      eapply failed_in_create; [reflexivity | right; left; exact Hup]. }
  destruct (db w !! newObjectId c) as [old|] eqn:Hold.
  - eexists _, _; split; [reflexivity|].
    eapply failed_in_create; [reflexivity | right; right; eauto].
  - eexists _, _; split; [reflexivity|].
    eapply created; eauto.
Qed.

Lemma post_jobs_created c s w :
  1 <= js_length (trim s) <= 5000 ->
  dbUp c = true ->
  db w !! newObjectId c = None ->
  handle c (PostJobs (JStr s)) w =
    (Ret (mkResponse 201 (JobBody (createdView (newJob c s)))),
     mkWorld (<[newObjectId c := newJob c s]> (db w)) (calls w ++ [CallCreate])
             (timers w ++ [mkTimer 5000 (toString (newObjectId c))])).
Proof.
  intros [Hlo Hhi] Hup Hfresh. simpl. rewrite post_jobs_run.
  rewrite bool_decide_eq_false_2.
  - apply Z.leb_le in Hhi. rewrite Hhi, Hup, Hfresh. reflexivity.
  - intros E. rewrite E in Hlo. unfold js_length in Hlo. simpl in Hlo. lia.
Qed.

(** A prompt of white space only is refused by the route, with a 400. *)
Lemma post_jobs_blank c s w :
  forallb isWhiteSpace s = true ->
  handle c (PostJobs (JStr s)) w =
    (Ret (errorResponse 400
       "Invalid request: prompt is required and must be a non-empty string"), w).
Proof.
  intros Hs. simpl. rewrite post_jobs_run, (trim_blank s Hs). reflexivity.
Qed.

End Creation.

(** C2 (the code at the failing input): a prompt of 5001 letters passes the
    route's own check, the schema's [maxlength] refuses it inside
    [Job.create], and the route's [catch] answers 500
    ["Failed to create job"] where the claim expects the 400 of a
    validation error; no document is stored and no timer is set. *)
Theorem post_jobs_overlong_prompt_answers_500
    {penv : ProcessEnv} {mongoose : Mongoose} (c : Ctx) (w : World) :
  js_length (trim overlongPrompt) = 5001
  /\ handle c (PostJobs (JStr overlongPrompt)) w =
       (Ret (errorResponse 500 "Failed to create job"), logged CallCreate w)
  /\ statusCode (errorResponse 500 "Failed to create job") <> 400
  /\ db (after c (PostJobs (JStr overlongPrompt)) w) = db w
  /\ timers (after c (PostJobs (JStr overlongPrompt)) w) = timers w.
Proof.
  pose proof overlongPrompt_length as Hlen.
  assert (Hrun : handle c (PostJobs (JStr overlongPrompt)) w =
                 (Ret (errorResponse 500 "Failed to create job"), logged CallCreate w)).
  { simpl. rewrite post_jobs_run.
    rewrite bool_decide_eq_false_2.
    - rewrite Hlen. reflexivity.
    - intros E. rewrite E in Hlen. discriminate. }
  split; [exact Hlen|]. split; [exact Hrun|]. split; [discriminate|].
  unfold after. rewrite Hrun. split; reflexivity.
Qed.


(** A creation while the database is down sets no timer. *)
Example create_with_database_down :
  @handle devEnv hexMongoose (mkCtx 1000 1%N false)
     (PostJobs (JStr (lit "summarize X"))) emptyWorld
  = (Ret (errorResponse 500 "Failed to create job"), mkWorld ∅ [CallCreate] []).
Proof. vm_compute. reflexivity. Qed.

(** A creation that goes through sets the one timer of the new job. *)
Example create_sets_one_timer :
  timers (@afterAll devEnv hexMongoose [createX] emptyWorld)
  = [mkTimer 5000 (lit "000000000000000000000001")].
Proof. vm_compute. reflexivity. Qed.

(** ** Listing *)

Section Listing.
Context {penv : ProcessEnv} {mongoose : Mongoose}.




End Listing.



(** The empty collection lists as the empty array. *)
Example list_of_nothing :
  fst (@handle devEnv hexMongoose ctxList GetJobs emptyWorld)
  = Ret (mkResponse 200 (JobsBody [])).
Proof. vm_compute. reflexivity. Qed.

(** ** The life of a job *)

Section Lifecycle.
Context {penv : ProcessEnv} {mongoose : Mongoose}.

Lemma after_db c r w : DbChange c r w (db (after c r w)).
Proof.
  unfold after. destruct r as [p|req|id|]; simpl.
  - destruct (post_jobs_outcome c p w) as (res & w' & Hrun & Hout).
    rewrite Hrun. simpl.
    destruct Hout as [s Hp Hlen Hup Hfresh | Hbad | s Hp Hwhy]; simpl.
    + subst p. apply (db_created c _ w s eq_refl Hfresh).
    + apply db_same.
    + apply db_same.
  - unfold post_webhook_callback. rewrite validateWebhookSecret_run.
    case_bool_decide as Hsec; [|apply db_same].
    rewrite webhook_callback_run. simpl.
    destruct (negb (truthy (body_jobId req)) || negb (truthy (body_result req)));
      [apply db_same|].
    destruct (castObjectId (body_jobId req)) as [oid|] eqn:Hcast;
      [|simpl; apply db_same].
    destruct (castString (body_result req)) as [x|] eqn:Hres;
      [|simpl; apply db_same].
    destruct (dbUp c); [|simpl; apply db_same].
    destruct (db w !! oid) as [job|] eqn:Hjob; [|simpl; apply db_same].
    simpl. apply (db_completed c _ w req oid job x eq_refl Hsec Hcast Hres Hjob).
  - rewrite get_job_run. repeat case_match; simpl; apply db_same.
  - rewrite get_jobs_run. repeat case_match; simpl; apply db_same.
Qed.

Lemma emptyWorld_db_ok : db_ok (db emptyWorld).
Proof. intros oid job Hin. simpl in Hin. rewrite lookup_empty in Hin. discriminate. Qed.

Lemma after_db_ok c r w : db_ok (db w) -> db_ok (db (after c r w)).
Proof.
  intros Hok.
  destruct (after_db c r w) as [| s _ Hfresh | req oid job x _ _ _ _ Hjob];
    [exact Hok | |]; intros k j Hk.
  - destruct (decide (newObjectId c = k)) as [<- | Hne].
    + rewrite lookup_insert_eq in Hk. inversion Hk. left. split; reflexivity.
    + rewrite lookup_insert_ne in Hk by exact Hne. eapply Hok, Hk.
  - destruct (decide (oid = k)) as [<- | Hne].
    + rewrite lookup_insert_eq in Hk. inversion Hk. right. simpl. eauto.
    + rewrite lookup_insert_ne in Hk by exact Hne. eapply Hok, Hk.
Qed.


(** What one request does to one document of the collection. *)
Lemma after_job c r w oid job :
  db w !! oid = Some job ->
  db (after c r w) !! oid = Some job
  \/ exists req x,
       r = PostCallback req
       /\ header_x_webhook_secret req = Some SHARED_SECRET
       /\ castObjectId (body_jobId req) = Some oid
       /\ castString (body_result req) = Some x
       /\ db (after c r w) !! oid = Some (completed job x (now c)).
Proof.
  intros Hjob.
  destruct (after_db c r w) as [| s _ Hfresh | req oid' job' x Hr Hsec Hcast Hres Hjob'].
  - left. exact Hjob.
  - left. rewrite lookup_insert_ne; [exact Hjob|].
    intros <-. rewrite Hfresh in Hjob. discriminate.
  - destruct (decide (oid' = oid)) as [-> | Hne].
    + right. exists req, x. rewrite lookup_insert_eq.
      rewrite Hjob in Hjob'. inversion Hjob'. subst job'. auto.
    + left. rewrite lookup_insert_ne by exact Hne. exact Hjob.
Qed.



End Lifecycle.




(** ** Reads and completions in flight together *)

Section Reads.
Context {penv : ProcessEnv} {mongoose : Mongoose}.

Lemma fullView_consistent job : job_ok job -> consistentView (fullView job).
Proof.
  intros [[Hs Hr] | [Hs [x Hr]]]; unfold consistentView; simpl; rewrite Hs, Hr; eauto.
Qed.

Lemma listed_jobs_ok d :
  db_ok d -> Forall job_ok (merge_sort createdAt_desc (snd <$> map_to_list d)).
Proof.
  intros Hok. apply Forall_forall. intros job Hin.
  rewrite merge_sort_Permutation in Hin.
  apply list_elem_of_fmap in Hin as [[k j] [-> Hin]].
  apply elem_of_map_to_list in Hin. simpl. eapply Hok, Hin.
Qed.

(** Whatever the collection holds when the model operation of a request
    is done, the answer built from it is not torn. *)
Lemma handle_consistent c r w res w' :
  db_ok (db w) ->
  handle c r w = (Ret res, w') ->
  consistentResponse res.
Proof.
  intros Hok. destruct r as [p|req|id|]; simpl.
  - rewrite post_jobs_run.
    repeat case_match; intros [= <- <-]; try exact I.
    unfold consistentResponse, consistentView. simpl. auto.
  - unfold post_webhook_callback. rewrite validateWebhookSecret_run.
    rewrite webhook_callback_run.
    repeat case_match; intros [= <- <-]; try exact I.
    unfold consistentResponse, consistentView. simpl. eauto.
  - rewrite get_job_run.
    repeat case_match; intros [= <- <-]; try exact I.
    apply fullView_consistent. eapply Hok. eassumption.
  - rewrite get_jobs_run.
    repeat case_match; intros [= <- <-]; try exact I.
    simpl. apply Forall_fmap. eapply Forall_impl; [apply listed_jobs_ok, Hok|].
    intros job Hjob. apply fullView_consistent, Hjob.
Qed.

Lemma run_snoc schedule e : run (schedule ++ [e]) = sys_step (run schedule) e.
Proof. unfold run. rewrite foldl_app. reflexivity. Qed.

(** Every world a schedule leads to holds well-formed documents only. *)
Lemma run_db_ok schedule : db_ok (db (world (run schedule))).
Proof.
  induction schedule as [|e schedule IH] using rev_ind.
  - apply emptyWorld_db_ok.
  - rewrite run_snoc. destruct e as [r | c n]; simpl; [exact IH|].
    destruct (inflight (run schedule) !! n) as [r|]; [|exact IH].
    pose proof (after_db_ok c r _ IH) as Hdb'. unfold after in Hdb'.
    destruct (handle c r (world (run schedule))) as [[res | e] w']; exact Hdb'.
Qed.

(** A read of a job served before a completion of it sees the job as it
    was, served after it sees the completed job. *)
Lemma read_sees_before_or_after cRead cDone req id w oid job r :
  completes cDone req w oid job r ->
  castObjectId (JStr id) = Some oid ->
  dbUp cRead = true ->
  fst (handle cRead (GetJob id) w) = Ret (mkResponse 200 (JobBody (fullView job)))
  /\ fst (handle cRead (GetJob id) (after cDone (PostCallback req) w))
     = Ret (mkResponse 200 (JobBody (fullView (completed job r (now cDone))))).
Proof.
  intros Hc Hcast Hup. split.
  - simpl. rewrite get_job_run, Hcast, Hup, (completes_job _ _ _ _ _ _ Hc).
    reflexivity.
  - unfold after. rewrite (callback_completes cDone req w oid job r Hc).
    simpl. rewrite get_job_run, Hcast, Hup. simpl.
    rewrite lookup_insert_eq. reflexivity.
Qed.

End Reads.

(** C5: whatever the order in which requests arrive and their model
    operations are done, so also when a [GET /jobs/:id] or a [GET /jobs]
    is in flight together with a callback for the same job, no answer
    shows a completed job without a result or a pending job with one; a
    read of a job served before a completion of it answers with the job as
    it was, and served after it answers with the completed job. *)
Theorem reads_are_never_torn
    {penv : ProcessEnv} {mongoose : Mongoose} (schedule : list Event) :
  Forall (fun a => consistentResponse a.2) (answered (run schedule))
  /\ (forall cRead cDone req id oid job r,
        completes cDone req (world (run schedule)) oid job r ->
        castObjectId (JStr id) = Some oid ->
        dbUp cRead = true ->
        fst (handle cRead (GetJob id) (world (run schedule)))
          = Ret (mkResponse 200 (JobBody (fullView job)))
        /\ fst (handle cRead (GetJob id)
                  (after cDone (PostCallback req) (world (run schedule))))
          = Ret (mkResponse 200 (JobBody (fullView (completed job r (now cDone)))))).
Proof.
  split; [|intros; eapply read_sees_before_or_after; eassumption].
  induction schedule as [|e schedule IH] using rev_ind; [constructor|].
  rewrite run_snoc. destruct e as [r | c n]; simpl; [exact IH|].
  destruct (inflight (run schedule) !! n) as [r|]; [|exact IH].
  pose proof (handle_consistent c r (world (run schedule))) as Hres.
  destruct (handle c r (world (run schedule))) as [[res | e] w']; simpl;
    [|exact IH].
  apply Forall_app. split; [exact IH|].
  constructor; [|constructor]. simpl.
  apply (Hres res w' (run_db_ok schedule) eq_refl).
Qed.

Lemma reads_are_never_torn_witness :
  @completes devEnv hexMongoose ctx2 (goodCallback (lit "done"))
     (world (@run devEnv hexMongoose createdSchedule)) 1%N job1 (lit "done")
  /\ fst (@handle devEnv hexMongoose ctx3 (GetJob id1)
            (world (@run devEnv hexMongoose createdSchedule)))
     = Ret (mkResponse 200 (JobBody (fullView job1)))
  /\ fst (@handle devEnv hexMongoose ctx3 (GetJob id1)
            (@after devEnv hexMongoose ctx2 (PostCallback (goodCallback (lit "done")))
               (world (@run devEnv hexMongoose createdSchedule))))
     = Ret (mkResponse 200 (JobBody (fullView (completed job1 (lit "done") 2000)))).
Proof.
  assert (Hc : @completes devEnv hexMongoose ctx2 (goodCallback (lit "done"))
                 (world (@run devEnv hexMongoose createdSchedule)) 1%N job1
                 (lit "done")).
  { split; try reflexivity; try (vm_compute; reflexivity). discriminate. }
  split; [exact Hc|].
  apply (proj2 (@reads_are_never_torn devEnv hexMongoose createdSchedule)
           ctx3 ctx2 (goodCallback (lit "done")) id1 1%N job1 (lit "done") Hc
           eq_refl eq_refl).
Defined.

(** The read served after the callback sees the completed job with its
    result. *)
Example race_callback_first :
  answered (@run devEnv hexMongoose raceCallbackFirst) !! 2%nat
  = Some (GetJob id1,
          mkResponse 200 (JobBody (fullView
            (mkJob 1%N (lit "summarize X") COMPLETED (Some (lit "done")) 1000 2000)))).
Proof. vm_compute. reflexivity. Qed.

(** The read served before the callback sees the pending job without one. *)
Example race_read_first :
  answered (@run devEnv hexMongoose raceReadFirst) !! 1%nat
  = Some (GetJob id1,
          mkResponse 200 (JobBody (fullView
            (mkJob 1%N (lit "summarize X") PENDING None 1000 1000)))).
Proof. vm_compute. reflexivity. Qed.

(** * Part III: the rest of the code *)

(** ** Trimming *)

Lemma trimStart_keeps c s : isWhiteSpace c = false -> trimStart (c :: s) = c :: s.
Proof. intros Hc. simpl. rewrite Hc. reflexivity. Qed.

Lemma trimStart_nil_iff s : trimStart s = [] <-> forallb isWhiteSpace s = true.
Proof.
  induction s as [|c s IH]; simpl; [tauto|].
  destruct (isWhiteSpace c); simpl; [exact IH|].
  split; discriminate.
Qed.

Lemma trimStart_head s c : head (trimStart s) = Some c -> isWhiteSpace c = false.
Proof.
  induction s as [|d s IH]; simpl; [discriminate|].
  destruct (isWhiteSpace d) eqn:Hd; [exact IH|].
  simpl. intros [= <-]. exact Hd.
Qed.

Lemma trimStart_idem s : trimStart (trimStart s) = trimStart s.
Proof.
  induction s as [|c s IH]; simpl; [reflexivity|].
  destruct (isWhiteSpace c) eqn:Hc; [exact IH|].
  simpl. rewrite Hc. reflexivity.
Qed.

Lemma trimStart_snoc l c :
  isWhiteSpace c = false -> trimStart (l ++ [c]) = trimStart l ++ [c].
Proof.
  intros Hc. induction l as [|d l IH]; simpl.
  - rewrite Hc. reflexivity.
  - destruct (isWhiteSpace d); [exact IH | reflexivity].
Qed.

Lemma trimEnd_keeps c s :
  isWhiteSpace c = false -> trimEnd (c :: s) = c :: trimEnd s.
Proof.
  intros Hc. unfold trimEnd. simpl rev.
  rewrite (trimStart_snoc _ c Hc), rev_app_distr. reflexivity.
Qed.

Lemma trimEnd_idem s : trimEnd (trimEnd s) = trimEnd s.
Proof. unfold trimEnd. rewrite rev_involutive, trimStart_idem. reflexivity. Qed.

Lemma last_rev_head {A} (l : list A) : last (rev l) = head l.
Proof. destruct l as [|x l]; [reflexivity|]. simpl. apply last_snoc. Qed.

Lemma forallb_rev_iff {A} (f : A -> bool) (l : list A) :
  forallb f (rev l) = true <-> forallb f l = true.
Proof.
  rewrite !forallb_forall. split; intros Hall x Hx; apply Hall.
  - apply in_rev in Hx. exact Hx.
  - apply in_rev. exact Hx.
Qed.

(** The trimmed string is empty, or begins with a character that is not
    white space. *)
Lemma trim_shape s :
  trim s = []
  \/ exists c a, trimStart s = c :: a /\ isWhiteSpace c = false
                 /\ trim s = c :: trimEnd a.
Proof.
  unfold trim. destruct (trimStart s) as [|c a] eqn:Ha; [left; reflexivity|].
  right. exists c, a.
  assert (Hc : isWhiteSpace c = false).
  { apply (trimStart_head s). rewrite Ha. reflexivity. }
  split; [reflexivity|]. split; [exact Hc|]. apply trimEnd_keeps, Hc.
Qed.

(** Trimming a trimmed string changes nothing. *)
Lemma trim_idem s : trim (trim s) = trim s.
Proof.
  destruct (trim_shape s) as [-> | (c & a & _ & Hc & ->)]; [reflexivity|].
  unfold trim. rewrite (trimStart_keeps c _ Hc), (trimEnd_keeps c _ Hc), trimEnd_idem.
  reflexivity.
Qed.

(** The strings that trim to nothing are the strings of white space. *)
Lemma trim_nil_iff s : trim s = [] <-> forallb isWhiteSpace s = true.
Proof.
  split; [|apply trim_blank].
  destruct (trim_shape s) as [Hnil | (c & a & _ & _ & ->)]; [|discriminate].
  intros _. unfold trim, trimEnd in Hnil.
  assert (Hrev : trimStart (rev (trimStart s)) = []).
  { apply (f_equal (@rev N)) in Hnil. rewrite rev_involutive in Hnil. exact Hnil. }
  apply trimStart_nil_iff, forallb_rev_iff in Hrev.
  apply trimStart_nil_iff.
  destruct (trimStart s) as [|c a] eqn:Ha; [reflexivity|].
  assert (Hc : isWhiteSpace c = false).
  { apply (trimStart_head s). rewrite Ha. reflexivity. }
  rewrite rev_involutive in Hrev. cbn [forallb] in Hrev.
  rewrite Hc in Hrev. discriminate.
Qed.

(** A trimmed string neither begins nor ends with white space. *)
Lemma trim_ends s :
  (forall c, head (trim s) = Some c -> isWhiteSpace c = false)
  /\ (forall c, last (trim s) = Some c -> isWhiteSpace c = false).
Proof.
  split; intros c Hc.
  - destruct (trim_shape s) as [Hnil | (d & a & _ & Hd & Heq)].
    + rewrite Hnil in Hc. discriminate.
    + rewrite Heq in Hc. simpl in Hc. congruence.
  - unfold trim, trimEnd in Hc. rewrite last_rev_head in Hc.
    apply (trimStart_head _ _ Hc).
Qed.

(** ** What a request does *)

Section Effects.
Context {penv : ProcessEnv} {mongoose : Mongoose}.

Lemma handle_effect c r w :
  exists res w', handle c r w = (Ret res, w') /\ Effect c r w res w'.
Proof.
  destruct r as [p|req|id|]; simpl.
  - destruct (post_jobs_outcome c p w) as (res & w' & Hrun & Hout).
    exists res, w'. split; [exact Hrun|].
    destruct Hout as [s Hp Hlen Hup Hfresh | Hbad | s Hp Hwhy].
    + subst p. apply (eff_created c _ w s eq_refl Hlen Hup Hfresh).
    + apply eff_refused; simpl; auto; lia.
    + apply eff_refused; simpl; auto; lia.
  - unfold post_webhook_callback. rewrite validateWebhookSecret_run.
    case_bool_decide as Hsec.
    2:{ eexists _, _; split; [reflexivity|].
        apply eff_refused; simpl; auto; lia. }
    rewrite webhook_callback_run. simpl.
    destruct (negb (truthy (body_jobId req)) || negb (truthy (body_result req))).
    { eexists _, _; split; [reflexivity|]. apply eff_refused; simpl; auto; lia. }
    destruct (castObjectId (body_jobId req)) as [oid|] eqn:Hcast.
    2:{ eexists _, _; split; [reflexivity|]. apply eff_refused; simpl; auto 10; lia. }
    destruct (castString (body_result req)) as [x|] eqn:Hres.
    2:{ eexists _, _; split; [reflexivity|]. apply eff_refused; simpl; auto 10; lia. }
    destruct (dbUp c).
    2:{ eexists _, _; split; [reflexivity|]. apply eff_refused; simpl; auto 10; lia. }
    destruct (db w !! oid) as [job|] eqn:Hjob.
    + eexists _, _; split; [reflexivity|].
      apply (eff_completed c _ w req oid job x eq_refl Hsec Hcast Hres Hjob).
    + eexists _, _; split; [reflexivity|]. apply eff_refused; simpl; auto 10; lia.
  - rewrite get_job_run.
    destruct (castObjectId (JStr id)) as [oid|] eqn:Hcast.
    2:{ eexists _, _; split; [reflexivity|]. apply eff_refused; simpl; auto; lia. }
    destruct (dbUp c).
    2:{ eexists _, _; split; [reflexivity|]. apply eff_refused; simpl; auto; lia. }
    destruct (db w !! oid) as [job|] eqn:Hjob.
    + eexists _, _; split; [reflexivity|].
      apply (eff_found c _ w id oid job eq_refl Hcast Hjob).
    + eexists _, _; split; [reflexivity|]. apply eff_refused; simpl; auto; lia.
  - rewrite get_jobs_run. destruct (dbUp c).
    + eexists _, _; split; [reflexivity|]. apply eff_listed. reflexivity.
    + eexists _, _; split; [reflexivity|]. apply eff_refused; simpl; auto; lia.
Qed.

Lemma after_effect c r w : exists res, Effect c r w res (after c r w).
Proof.
  destruct (handle_effect c r w) as (res & w' & Hrun & Heff).
  exists res. unfold after. rewrite Hrun. exact Heff.
Qed.

Lemma afterAll_snoc rs c r w :
  afterAll (rs ++ [(c, r)]) w = after c r (afterAll rs w).
Proof. unfold afterAll. rewrite foldl_app. reflexivity. Qed.

End Effects.

(** X8: every request is answered with one of the status codes of its
    route; an answer with an error body has a status of 400 or more and
    comes with the collection and the timers exactly as they were, and an
    answer with job data has a status below 400. *)
Theorem errors_change_nothing
    {penv : ProcessEnv} {mongoose : Mongoose} (c : Ctx) (r : Request) (w : World) :
  exists res w',
    handle c r w = (Ret res, w')
    /\ In (statusCode res) (routeCodes r)
    /\ match body res with
       | ErrorBody _ =>
           400 <= statusCode res /\ db w' = db w /\ timers w' = timers w
       | _ => statusCode res < 400
       end.
Proof.
  destruct (handle_effect c r w) as (res & w' & Hrun & Heff).
  exists res, w'. split; [exact Hrun|].
  destruct Heff as [s -> _ _ _ | req oid job x -> _ _ _ _ | id oid job -> _ _
                    | -> | code msg w' Hcode Hge Hdb Htimers]; simpl; auto.
  - split; [auto|lia].
  - split; [auto|lia].
  - split; [auto|lia].
  - split; [auto|lia].
Qed.

(** ** What the collection keeps *)

Section Keeps.
Context {penv : ProcessEnv} {mongoose : Mongoose}.

Lemma job_persists rs w oid job :
  db w !! oid = Some job ->
  exists job',
    db (afterAll rs w) !! oid = Some job'
    /\ _id job' = _id job /\ prompt job' = prompt job
    /\ createdAt job' = createdAt job.
Proof.
  revert w job. induction rs as [|[c r] rs IH]; intros w job Hjob.
  - exists job. auto.
  - rewrite afterAll_cons.
    destruct (after_job c r w oid job Hjob)
      as [Hsame | (req & x & _ & _ & _ & _ & Hnew)].
    + apply (IH _ job Hsame).
    + destruct (IH _ _ Hnew) as (job' & Hjob' & Hid & Hp & Hc).
      exists job'. simpl in *. auto.
Qed.

Lemma after_stored_ok c r w :
  (forall k j, db w !! k = Some j -> stored_ok k j) ->
  forall k j, db (after c r w) !! k = Some j -> stored_ok k j.
Proof.
  intros Hok k j. destruct (after_effect c r w) as (res & Heff).
  destruct Heff as [s _ Hlen _ Hfresh | req oid job x _ _ _ _ Hjob | id oid job _ _ _
                    | _ | code msg w' _ _ Hdb _]; simpl.
  - destruct (decide (newObjectId c = k)) as [<- | Hne].
    + rewrite lookup_insert_eq. intros [= <-]. unfold stored_ok. simpl.
      split; [reflexivity|]. split; [exact Hlen | apply trim_idem].
    + rewrite lookup_insert_ne by exact Hne. apply Hok.
  - destruct (decide (oid = k)) as [<- | Hne].
    + rewrite lookup_insert_eq. intros [= <-]. apply (Hok _ _ Hjob).
    + rewrite lookup_insert_ne by exact Hne. apply Hok.
  - apply Hok.
  - apply Hok.
  - rewrite Hdb. apply Hok.
Qed.

Lemma afterAll_stored_ok rs w :
  (forall k j, db w !! k = Some j -> stored_ok k j) ->
  forall k j, db (afterAll rs w) !! k = Some j -> stored_ok k j.
Proof.
  revert w. induction rs as [|[c r] rs IH]; intros w Hok; [exact Hok|].
  rewrite afterAll_cons. apply IH, after_stored_ok, Hok.
Qed.

End Keeps.

(** X4: every document the service has stored sits under its own [_id] and
    holds a prompt of 1 to 5000 code units that neither begins nor ends
    with white space (trimming it again changes nothing). *)
Theorem stored_prompts_are_trimmed_and_bounded
    {penv : ProcessEnv} {mongoose : Mongoose} (rs : list (Ctx * Request))
    (oid : ObjectId) (job : IJob) :
  db (afterAll rs emptyWorld) !! oid = Some job ->
  _id job = oid
  /\ 1 <= js_length (prompt job) <= 5000
  /\ trim (prompt job) = prompt job
  /\ (forall ch, head (prompt job) = Some ch -> isWhiteSpace ch = false)
  /\ (forall ch, last (prompt job) = Some ch -> isWhiteSpace ch = false).
Proof.
  intros Hjob.
  assert (Hok : stored_ok oid job).
  { apply (afterAll_stored_ok rs emptyWorld); [|exact Hjob].
    intros k j Hk. simpl in Hk. rewrite lookup_empty in Hk. discriminate. }
  destruct Hok as (Hid & Hlen & Htrim).
  split; [exact Hid|]. split; [exact Hlen|]. split; [exact Htrim|].
  rewrite <- Htrim. apply trim_ends.
Qed.

Lemma stored_prompts_are_trimmed_and_bounded_witness :
  db (@afterAll devEnv hexMongoose
        [(ctxA, PostJobs (JStr (lit "A"))); (ctxB, PostJobs (JStr (lit " B ")))]
        emptyWorld) !! 2%N
    = Some (mkJob 2%N (lit "B") PENDING None 1001 1001)
  /\ trim (lit "B") = lit "B".
Proof.
  assert (Hjob : db (@afterAll devEnv hexMongoose
                       [(ctxA, PostJobs (JStr (lit "A")));
                        (ctxB, PostJobs (JStr (lit " B ")))] emptyWorld) !! 2%N
                 = Some (mkJob 2%N (lit "B") PENDING None 1001 1001)).
  { vm_compute. reflexivity. }
  split; [exact Hjob|].
  apply (@stored_prompts_are_trimmed_and_bounded devEnv hexMongoose _ 2%N _ Hjob).
Defined.

(** X5: no request removes a document or changes its [_id], its prompt or
    its [createdAt]: a document of the collection is still there, with
    these three fields as they were, after any further requests. *)
Theorem documents_are_kept
    {penv : ProcessEnv} {mongoose : Mongoose} (rs : list (Ctx * Request))
    (w : World) (oid : ObjectId) (job : IJob) :
  db w !! oid = Some job ->
  exists job',
    db (afterAll rs w) !! oid = Some job'
    /\ _id job' = _id job
    /\ prompt job' = prompt job
    /\ createdAt job' = createdAt job
    /\ (size (db w) <= size (db (afterAll rs w)))%nat.
Proof.
  intros Hjob.
  destruct (job_persists rs w oid job Hjob) as (job' & Hjob' & Hid & Hp & Hc).
  exists job'. repeat (split; [assumption|]).
  clear. revert w. induction rs as [|[c r] rs IH]; intros w; [reflexivity|].
  rewrite afterAll_cons. etransitivity; [|apply IH].
  destruct (after_effect c r w) as (res & Heff).
  destruct Heff as [s _ _ _ Hfresh | req oid job x _ _ _ _ Hjob | id oid job _ _ _
                    | _ | code msg w' _ _ Hdb _]; simpl.
  - rewrite map_size_insert_None by exact Hfresh. lia.
  - rewrite map_size_insert_Some by eauto. lia.
  - lia.
  - lia.
  - rewrite Hdb. lia.
Qed.

Lemma documents_are_kept_witness :
  db world1 !! 1%N = Some job1
  /\ exists job',
       db (@afterAll devEnv hexMongoose [completeFirst; completeSecond] world1) !! 1%N
         = Some job'
       /\ prompt job' = prompt job1.
Proof.
  assert (Hjob : db world1 !! 1%N = Some job1) by reflexivity.
  split; [exact Hjob|].
  destruct (@documents_are_kept devEnv hexMongoose [completeFirst; completeSecond]
              world1 1%N job1 Hjob) as (job' & Hjob' & _ & Hp & _).
  exists job'. auto.
Defined.

(** ** Timestamps *)

Section Clock.
Context {penv : ProcessEnv} {mongoose : Mongoose}.

(** With a clock that never goes back, no document is updated before it
    was created, nor after the latest request. *)
Lemma timestamps_invariant rs :
  clockAdvances rs ->
  forall oid job,
    db (afterAll rs emptyWorld) !! oid = Some job ->
    createdAt job <= updatedAt job
    /\ forall t, (forall cr, cr ∈ rs -> now cr.1 <= t) -> updatedAt job <= t.
Proof.
  induction rs as [|[c r] rs IH] using rev_ind; intros Hclock oid job.
  - simpl. rewrite lookup_empty. discriminate.
  - unfold clockAdvances in Hclock. rewrite fmap_app in Hclock.
    apply StronglySorted_app in Hclock as (Hle & Hrs & _).
    specialize (IH Hrs).
    assert (Hbefore : forall cr, cr ∈ rs -> now cr.1 <= now c).
    { intros cr Hcr. apply Hle; [|simpl; left].
      apply list_elem_of_fmap. exists cr. auto. }
    assert (Hold : forall k j t,
               db (afterAll rs emptyWorld) !! k = Some j ->
               (forall cr, cr ∈ rs ++ [(c, r)] -> now cr.1 <= t) ->
               createdAt j <= updatedAt j /\ updatedAt j <= t).
    { intros k j t Hk Ht. destruct (IH k j Hk) as [H1 H2]. split; [exact H1|].
      apply H2. intros cr Hcr. apply Ht, elem_of_app. left. exact Hcr. }
    rewrite afterAll_snoc.
    destruct (after_effect c r (afterAll rs emptyWorld)) as (res & Heff).
    destruct Heff as [s _ _ _ Hfresh | req k old x _ _ _ _ Hk | id k old _ _ _
                      | _ | code msg w' _ _ Hdb _]; simpl.
    + destruct (decide (newObjectId c = oid)) as [<- | Hne].
      * rewrite lookup_insert_eq. intros [= <-]. simpl. split; [lia|].
        intros t Ht. apply (Ht (c, r)), elem_of_app. right. left.
      * rewrite lookup_insert_ne by exact Hne. intros Hj. split.
        -- apply (IH oid job Hj).
        -- intros t Ht. apply (Hold oid job t Hj Ht).
    + destruct (decide (k = oid)) as [<- | Hne].
      * rewrite lookup_insert_eq. intros [= <-]. simpl.
        destruct (IH k old Hk) as [H1 H2]. split.
        -- specialize (H2 (now c) Hbefore). lia.
        -- intros t Ht. apply (Ht (c, r)), elem_of_app. right. left.
      * rewrite lookup_insert_ne by exact Hne. intros Hj. split.
        -- apply (IH oid job Hj).
        -- intros t Ht. apply (Hold oid job t Hj Ht).
    + intros Hj. split; [apply (IH oid job Hj)|].
      intros t Ht. apply (Hold oid job t Hj Ht).
    + intros Hj. split; [apply (IH oid job Hj)|].
      intros t Ht. apply (Hold oid job t Hj Ht).
    + rewrite Hdb. intros Hj. split; [apply (IH oid job Hj)|].
      intros t Ht. apply (Hold oid job t Hj Ht).
Qed.

End Clock.

(** X6: when the clock readings of the requests never go back, every
    stored document has [createdAt <= updatedAt]. *)
Theorem created_before_updated
    {penv : ProcessEnv} {mongoose : Mongoose} (rs : list (Ctx * Request))
    (oid : ObjectId) (job : IJob) :
  clockAdvances rs ->
  db (afterAll rs emptyWorld) !! oid = Some job ->
  createdAt job <= updatedAt job.
Proof.
  intros Hclock Hjob. apply (timestamps_invariant rs Hclock oid job Hjob).
Qed.

Lemma created_before_updated_witness :
  clockAdvances [createX; completeFirst]
  /\ db (@afterAll devEnv hexMongoose [createX; completeFirst] emptyWorld) !! 1%N
     = Some job1first
  /\ createdAt job1first <= updatedAt job1first.
Proof.
  assert (Hclock : clockAdvances [createX; completeFirst]).
  { unfold clockAdvances. simpl. repeat constructor; lia. }
  assert (Hjob : db (@afterAll devEnv hexMongoose [createX; completeFirst] emptyWorld)
                    !! 1%N = Some job1first).
  { vm_compute. reflexivity. }
  split; [exact Hclock|]. split; [exact Hjob|].
  apply (@created_before_updated devEnv hexMongoose _ 1%N _ Hclock Hjob).
Defined.

(** The hypothesis on the clock is needed: a completion stamped before the
    creation leaves [updatedAt] before [createdAt]. *)
Example clock_going_back :
  db (@afterAll devEnv hexMongoose [createX; completeEarlier] emptyWorld) !! 1%N
  = Some (mkJob 1%N (lit "summarize X") COMPLETED (Some (lit "first")) 1000 500).
Proof. vm_compute. reflexivity. Qed.

(** ** One document and one timer for each 201 *)

Section Counting.
Context {penv : ProcessEnv} {mongoose : Mongoose}.

Lemma timer_ok_insert d k job t : timer_ok d t -> timer_ok (<[k := job]> d) t.
Proof.
  intros (Hdelay & oid & Hsome & Hid). split; [exact Hdelay|].
  exists oid. split; [|exact Hid].
  destruct (decide (k = oid)) as [-> | Hne].
  - rewrite lookup_insert_eq. eauto.
  - rewrite lookup_insert_ne by exact Hne. exact Hsome.
Qed.

(** What one answered request adds to the count of documents, of timers
    and of 201 answers. *)
Lemma handle_counts c r w res w' :
  handle c r w = (Ret res, w') ->
  Forall (timer_ok (db w)) (timers w) ->
  Forall (timer_ok (db w')) (timers w')
  /\ ((statusCode res = 201
       /\ size (db w') = S (size (db w))
       /\ length (timers w') = S (length (timers w)))
      \/ (statusCode res <> 201
          /\ size (db w') = size (db w)
          /\ length (timers w') = length (timers w))).
Proof.
  intros Hrun Htimers.
  destruct (handle_effect c r w) as (res0 & w0 & Hrun0 & Heff).
  rewrite Hrun in Hrun0. injection Hrun0 as <- <-.
  destruct Heff as [s _ _ _ Hfresh | req oid job x _ _ _ _ Hjob | id oid job _ _ _
                    | _ | code msg w0 Hcode Hge Hdb Ht]; simpl.
  - split.
    + apply Forall_app. split.
      * eapply Forall_impl; [exact Htimers|]. intros t. apply timer_ok_insert.
      * constructor; [|constructor]. split; [reflexivity|].
        exists (newObjectId c). rewrite lookup_insert_eq. eauto.
    + left. rewrite map_size_insert_None by exact Hfresh.
      rewrite length_app. simpl. split; [reflexivity|]. split; lia.
  - split.
    + eapply Forall_impl; [exact Htimers|]. intros t. apply timer_ok_insert.
    + right. rewrite map_size_insert_Some by eauto. split; [discriminate|]. split; lia.
  - split; [exact Htimers|]. right. split; [discriminate|]. split; reflexivity.
  - split; [exact Htimers|]. right. split; [discriminate|]. split; reflexivity.
  - rewrite Hdb, Ht. split; [exact Htimers|]. right.
    split; [lia|]. split; reflexivity.
Qed.

End Counting.

(** X7: in every schedule of arrivals and services, the collection holds
    as many documents as requests were answered 201, there is exactly one
    timer for each of them, and every timer has the 5000 ms delay and the
    identifier of a stored document. *)
Theorem one_document_and_one_timer_per_201
    {penv : ProcessEnv} {mongoose : Mongoose} (schedule : list Event) :
  size (db (world (run schedule))) = length (created201 (answered (run schedule)))
  /\ length (timers (world (run schedule))) = size (db (world (run schedule)))
  /\ Forall (timer_ok (db (world (run schedule)))) (timers (world (run schedule))).
Proof.
  induction schedule as [|e schedule (IHsize & IHlen & IHok)] using rev_ind.
  - split; [reflexivity|]. split; [reflexivity | constructor].
  - rewrite run_snoc. destruct e as [r | c n]; simpl; [auto|].
    destruct (inflight (run schedule) !! n) as [r|]; [|auto].
    destruct (handle_answers c r (world (run schedule))) as (res & Hres).
    destruct (handle c r (world (run schedule))) as [out w'] eqn:Hrun.
    simpl in Hres. subst out. simpl.
    destruct (handle_counts c r _ res w' Hrun IHok)
      as (Hok' & [(Hcode & Hsize & Hlen) | (Hcode & Hsize & Hlen)]).
    + unfold created201 in *. rewrite filter_app, length_app.
      rewrite filter_cons_True by exact Hcode. simpl.
      split; [lia|]. split; [lia | exact Hok'].
    + unfold created201 in *. rewrite filter_app, length_app.
      rewrite filter_cons_False by exact Hcode. simpl.
      split; [lia|]. split; [lia | exact Hok'].
Qed.

(** ** Reads *)

Section ReadFacts.
Context {penv : ProcessEnv} {mongoose : Mongoose}.

(** An answer, and what the request does to the collection, depend on the
    collection only, not on the log of calls or on the timers. *)
Lemma handle_db_only c r w1 w2 :
  db w1 = db w2 ->
  fst (handle c r w1) = fst (handle c r w2)
  /\ db (after c r w1) = db (after c r w2).
Proof.
  intros Hdb. unfold after. destruct r as [p|req|id|]; simpl.
  - rewrite !post_jobs_run, Hdb. repeat case_match; simpl; auto.
  - unfold post_webhook_callback. rewrite !validateWebhookSecret_run.
    rewrite !webhook_callback_run, Hdb. simpl.
    repeat case_match; simpl; auto.
  - rewrite !get_job_run, Hdb. repeat case_match; simpl; auto.
  - rewrite !get_jobs_run, Hdb. repeat case_match; simpl; auto.
Qed.

Lemma read_keeps c r w :
  isRead r = true -> db (after c r w) = db w /\ timers (after c r w) = timers w.
Proof.
  intros Hr. unfold after. destruct r as [p|req|id|]; try discriminate; simpl.
  - rewrite get_job_run. repeat case_match; simpl; auto.
  - rewrite get_jobs_run. repeat case_match; simpl; auto.
Qed.

End ReadFacts.

(** X2: [GET /jobs/:id] and [GET /jobs] change neither the collection nor
    the timers, whatever they answer; a request served after a read is
    answered as it would have been without the read, and does to the
    collection what it would have done. *)
Theorem reads_are_safe
    {penv : ProcessEnv} {mongoose : Mongoose} (c c' : Ctx) (r r' : Request)
    (w : World) :
  isRead r = true ->
  db (after c r w) = db w
  /\ timers (after c r w) = timers w
  /\ fst (handle c' r' (after c r w)) = fst (handle c' r' w)
  /\ db (after c' r' (after c r w)) = db (after c' r' w).
Proof.
  intros Hr. destruct (read_keeps c r w Hr) as [Hdb Htimers].
  split; [exact Hdb|]. split; [exact Htimers|].
  apply handle_db_only, Hdb.
Qed.

Lemma reads_are_safe_witness :
  isRead (GetJob id1) = true
  /\ db (@after devEnv hexMongoose ctx2 (GetJob id1) world1) = db world1
  /\ fst (@handle devEnv hexMongoose ctx3 (PostCallback (goodCallback (lit "done")))
            (@after devEnv hexMongoose ctx2 (GetJob id1) world1))
     = fst (@handle devEnv hexMongoose ctx3 (PostCallback (goodCallback (lit "done")))
              world1).
Proof.
  split; [reflexivity|].
  destruct (@reads_are_safe devEnv hexMongoose ctx2 ctx3 (GetJob id1)
              (PostCallback (goodCallback (lit "done"))) world1 eq_refl)
    as (Hdb & _ & Hres & _).
  split; [exact Hdb | exact Hres].
Defined.

(** ** Reading back a created job *)



(** ** The mock worker *)

Lemma mockResult_nonempty jobId timestamp : mockResult jobId timestamp <> [].
Proof. unfold mockResult. discriminate. Qed.

(** What the mock worker sends for job [507f1f77bcf86cd799439011]. *)
Example mockResult_text :
  mockResult (lit "507f1f77bcf86cd799439011") (lit "2024-01-11T10:30:05.000Z")
  = lit "{" ++ [34%N] ++ lit "success" ++ [34%N] ++ lit ":true,"
    ++ [34%N] ++ lit "message" ++ [34%N] ++ lit ":"
    ++ [34%N] ++ lit "Processed job: 507f1f77bcf86cd799439011" ++ [34%N] ++ lit ","
    ++ [34%N] ++ lit "timestamp" ++ [34%N] ++ lit ":"
    ++ [34%N] ++ lit "2024-01-11T10:30:05.000Z" ++ [34%N] ++ lit "}".
Proof. vm_compute. reflexivity. Qed.

(** X9: the timer a successful creation sets is the one of [simulateN8nCallback]
    for the new job; when it fires, whatever requests were served in
    between and whatever the configured secret, its request passes the
    authenticator and the route's checks, is answered 200, and leaves the
    job completed with the JSON text the closure built as its result,
    provided the driver reads back the identifier it writes and the
    database answers; if the database does not answer, the request is
    answered 500 and the collection is unchanged. *)
Theorem mock_worker_completes_its_job
    {penv : ProcessEnv} {mongoose : Mongoose} (c cFire : Ctx) (s timestamp : jsstring)
    (w : World) (rs : list (Ctx * Request)) :
  1 <= js_length (trim s) <= 5000 ->
  dbUp c = true ->
  db w !! newObjectId c = None ->
  writesBack (newObjectId c) ->
  last (timers (after c (PostJobs (JStr s)) w))
    = Some (mkTimer 5000 (toString (newObjectId c)))
  /\ exists job,
       db (afterAll rs (after c (PostJobs (JStr s)) w)) !! newObjectId c = Some job
       /\ prompt job = trim s
       /\ (dbUp cFire = true ->
           fst (handle cFire
                  (PostCallback (firedCallback timestamp
                                   (mkTimer 5000 (toString (newObjectId c)))))
                  (afterAll rs (after c (PostJobs (JStr s)) w)))
           = Ret (mkResponse 200 (JobBody (updatedView
               (completed job (mockResult (toString (newObjectId c)) timestamp)
                          (now cFire)))))
           /\ db (after cFire
                    (PostCallback (firedCallback timestamp
                                     (mkTimer 5000 (toString (newObjectId c)))))
                    (afterAll rs (after c (PostJobs (JStr s)) w))) !! newObjectId c
              = Some (completed job (mockResult (toString (newObjectId c)) timestamp)
                                (now cFire)))
       /\ (dbUp cFire = false ->
           fst (handle cFire
                  (PostCallback (firedCallback timestamp
                                   (mkTimer 5000 (toString (newObjectId c)))))
                  (afterAll rs (after c (PostJobs (JStr s)) w)))
           = Ret (errorResponse 500 "Failed to update job")
           /\ db (after cFire
                    (PostCallback (firedCallback timestamp
                                     (mkTimer 5000 (toString (newObjectId c)))))
                    (afterAll rs (after c (PostJobs (JStr s)) w)))
              = db (afterAll rs (after c (PostJobs (JStr s)) w))).
Proof.
  intros Hlen Hup Hfresh [Hcast Hne].
  pose proof (post_jobs_created c s w Hlen Hup Hfresh) as Hrun.
  assert (Hnew : db (after c (PostJobs (JStr s)) w) !! newObjectId c
                 = Some (newJob c s)).
  { unfold after. rewrite Hrun. simpl. apply lookup_insert_eq. }
  split.
  { unfold after. rewrite Hrun. simpl. apply last_snoc. }
  destruct (job_persists rs _ _ _ Hnew) as (job & Hjob & _ & Hp & _).
  exists job. split; [exact Hjob|]. split; [exact Hp|].
  set (W := afterAll rs (after c (PostJobs (JStr s)) w)) in *.
  set (fired := firedCallback timestamp (mkTimer 5000 (toString (newObjectId c)))).
  split.
  - intros HupFire.
    assert (Hc : completes cFire fired W (newObjectId c) job
                   (mockResult (toString (newObjectId c)) timestamp)).
    { split; simpl.
      - reflexivity.
      - rewrite bool_decide_eq_false_2 by exact Hne. reflexivity.
      - exact Hcast.
      - exact Hjob.
      - reflexivity.
      - apply mockResult_nonempty.
      - exact HupFire. }
    unfold after. rewrite (callback_completes cFire fired W _ _ _ Hc). simpl.
    split; [reflexivity | apply lookup_insert_eq].
  - intros Hdown.
    assert (Hrun' : handle cFire (PostCallback fired) W
                    = (Ret (errorResponse 500 "Failed to update job"),
                       logged CallFindByIdAndUpdate W)).
    { rewrite (authorised_reaches_handler cFire fired W eq_refl), webhook_callback_run.
      simpl. rewrite bool_decide_eq_false_2 by exact Hne.
      simpl. rewrite Hcast, Hdown. reflexivity. }
    unfold after. rewrite Hrun'. split; reflexivity.
Qed.

Lemma mock_worker_completes_its_job_witness :
  (1 <= js_length (trim (lit "summarize X")) <= 5000
   /\ db emptyWorld !! 1%N = None
   /\ @writesBack hexMongoose 1%N)
  /\ last (timers (@after prodEnv hexMongoose (mkCtx 1000 1%N true)
                     (PostJobs (JStr (lit "summarize X"))) emptyWorld))
     = Some (mkTimer 5000 (@toString hexMongoose 1%N)).
Proof.
  assert (Hlen : 1 <= js_length (trim (lit "summarize X")) <= 5000)
    by (vm_compute; split; discriminate).
  assert (Hwb : @writesBack hexMongoose 1%N).
  { split; [reflexivity | discriminate]. }
  split; [split; [exact Hlen | split; [reflexivity | exact Hwb]]|].
  apply (@mock_worker_completes_its_job prodEnv hexMongoose (mkCtx 1000 1%N true) ctx2
           (lit "summarize X") (lit "2024-01-11T10:30:05.000Z") emptyWorld []
           Hlen eq_refl eq_refl Hwb).
Defined.

(** With [WEBHOOK_SECRET=s3cret], the job is created, the timer fires and
    the job is read back completed. *)
Example mock_worker_end_to_end :
  fst (@handle prodEnv hexMongoose ctx3 (GetJob id1)
         (@afterAll prodEnv hexMongoose
            [createX;
             (ctx2, PostCallback (@firedCallback prodEnv (lit "2024-01-11T10:30:05.000Z")
                                    (mkTimer 5000 id1)))]
            emptyWorld))
  = Ret (mkResponse 200 (JobBody (fullView
      (mkJob 1%N (lit "summarize X") COMPLETED
             (Some (mockResult id1 (lit "2024-01-11T10:30:05.000Z"))) 1000 2000)))).
Proof. vm_compute. reflexivity. Qed.

(** ** The form and the poll of the frontend, against the service *)

Lemma trimStart_length s : js_length (trimStart s) <= js_length s.
Proof.
  unfold js_length. induction s as [|c s IH]; [reflexivity|].
  cbn [trimStart]. destruct (isWhiteSpace c); [|reflexivity].
  cbn [length]. lia.
Qed.

Lemma trim_length s : js_length (trim s) <= js_length s.
Proof.
  unfold trim, trimEnd.
  pose proof (trimStart_length s) as H1.
  pose proof (trimStart_length (rev (trimStart s))) as H2.
  unfold js_length in *. rewrite length_rev in *. lia.
Qed.

Lemma handleSubmit_body_run captured :
  App.handleSubmit_body captured =
    if bool_decide (trim (App.prompt captured) = []) then None
    else Some (trim (App.prompt captured)).
Proof.
  unfold App.handleSubmit_body. cbn [truthy].
  destruct (bool_decide (trim (App.prompt captured) = [])); reflexivity.
Qed.

(** X10: [handleSubmit] sends no request exactly when the prompt typed is
    empty or white space only. Otherwise the prompt it posts is the text
    typed without the white space at its two ends: it is not empty, not
    longer than the text typed, begins and ends with a character that is
    not white space, and the [trim] of the route leaves it as it is. *)
Theorem form_posts_the_trimmed_prompt (captured : App.State) :
  (App.handleSubmit_body captured = None
   <-> forallb isWhiteSpace (App.prompt captured) = true)
  /\ (forall b,
        App.handleSubmit_body captured = Some b ->
        b = trim (App.prompt captured)
        /\ 1 <= js_length b <= js_length (App.prompt captured)
        /\ (exists c, head b = Some c /\ isWhiteSpace c = false)
        /\ (exists c, last b = Some c /\ isWhiteSpace c = false)
        /\ trim b = b).
Proof.
  rewrite handleSubmit_body_run. split.
  - rewrite <- trim_nil_iff. case_bool_decide as Hnil; split; intros H;
      congruence.
  - intros b Hb. case_bool_decide as Hnil; [discriminate|].
    injection Hb as <-.
    destruct (trim_ends (App.prompt captured)) as [Hhead Hlast].
    split; [reflexivity|]. split.
    { split; [apply js_length_pos, Hnil | apply trim_length]. }
    split.
    { destruct (trim (App.prompt captured)) as [|c a] eqn:Ht; [congruence|].
      exists c. split; [reflexivity | apply Hhead; reflexivity]. }
    split.
    { destruct (last (trim (App.prompt captured))) as [c|] eqn:Hl.
      - exists c. split; [reflexivity | apply Hlast; reflexivity].
      - apply last_None in Hl. congruence. }
    apply trim_idem.
Qed.

Lemma form_posts_the_trimmed_prompt_witness :
  App.handleSubmit_body typedForm = Some (lit "summarize X")
  /\ lit "summarize X" = trim (lit "  summarize X ")
  /\ trim (lit "summarize X") = lit "summarize X".
Proof.
  assert (Hb : App.handleSubmit_body typedForm = Some (lit "summarize X"))
    by reflexivity.
  destruct (proj2 (form_posts_the_trimmed_prompt typedForm) _ Hb)
    as (Heq & _ & _ & _ & Hidem).
  split; [exact Hb|]. split; [exact Heq | exact Hidem].
Defined.

Section Frontend.
Context {penv : ProcessEnv} {mongoose : Mongoose}.

(** X11: a prompt the form posts is never answered 400. With at most 5000
    code units, a reachable database and a fresh identifier it is stored
    as sent and the new job is put in front of the list the handler
    closed over, whatever a poll has shown since, and the text area is
    emptied. Otherwise (a longer prompt included) the answer is 500,
    nothing is stored, the text typed and the list stay, the message is
    'Failed to create job. Is the backend running?' and the form is
    disabled. In both cases [isLoading] ends [false]. *)
Theorem submit_end_to_end (captured : App.State) (b : jsstring) (c : Ctx) (w : World) :
  App.handleSubmit_body captured = Some b ->
  exists res w' out,
    handle c (PostJobs (JStr b)) w = (Ret res, w')
    /\ App.fetchedJob res = Some out
    /\ ((js_length b <= 5000 /\ dbUp c = true /\ db w !! newObjectId c = None
         /\ statusCode res = 201
         /\ out = App.Ok (createdView (newJob c b))
         /\ db w' !! newObjectId c
            = Some (mkJob (newObjectId c) b PENDING None (now c) (now c)))
        \/ ((5000 < js_length b \/ dbUp c = false
             \/ is_Some (db w !! newObjectId c))
            /\ statusCode res = 500 /\ out = App.NotOk
            /\ db w' = db w /\ timers w' = timers w))
    /\ forall s,
         App.isLoading (App.handleSubmit_end captured out s) = false
         /\ match out with
            | App.Ok v =>
                App.jobs (App.handleSubmit_end captured out s)
                  = v :: App.jobs captured
                /\ App.prompt (App.handleSubmit_end captured out s) = []
                /\ App.error (App.handleSubmit_end captured out s) = None
                /\ App.networkError (App.handleSubmit_end captured out s)
                   = App.networkError s
            | _ =>
                App.jobs (App.handleSubmit_end captured out s) = App.jobs s
                /\ App.prompt (App.handleSubmit_end captured out s) = App.prompt s
                /\ App.formDisabled (App.handleSubmit_end captured out s) = true
                /\ App.error (App.handleSubmit_end captured out s)
                   = Some (lit "Failed to create job. Is the backend running?")
            end.
Proof.
  intros Hb. rewrite handleSubmit_body_run in Hb.
  case_bool_decide as Hnil; [discriminate|]. injection Hb as <-.
  set (p := App.prompt captured) in *.
  assert (Hidem : trim (trim p) = trim p) by apply trim_idem.
  cbn [handle]. rewrite post_jobs_run, Hidem.
  rewrite bool_decide_eq_false_2 by exact Hnil.
  destruct (js_length (trim p) <=? 5000) eqn:Hlen; cbn [andb].
  - apply Z.leb_le in Hlen. destruct (dbUp c) eqn:Hup.
    + destruct (db w !! newObjectId c) as [old|] eqn:Hold.
      * eexists _, _, App.NotOk. split; [reflexivity|]. split; [reflexivity|].
        split; [right; repeat split; eauto|].
        intros s. cbn. repeat split.
      * eexists _, _, (App.Ok _). split; [reflexivity|]. split; [reflexivity|].
        split.
        { left. repeat split; try assumption.
          cbn [db]. rewrite lookup_insert_eq. unfold newJob. rewrite Hidem.
          reflexivity. }
        intros s. cbn. repeat split.
    + eexists _, _, App.NotOk. split; [reflexivity|]. split; [reflexivity|].
      split; [right; repeat split; eauto|].
      intros s. cbn. repeat split.
  - apply Z.leb_gt in Hlen.
    eexists _, _, App.NotOk. split; [reflexivity|]. split; [reflexivity|].
    split; [right; repeat split; eauto|].
    intros s. cbn. repeat split.
Qed.

(** X12: a poll changes nothing in the collection, and neither the text
    typed nor [isLoading]. With the database reachable it shows all jobs,
    newest first, clears the message and the network error, so that it
    enables again a form that a failed submission has disabled; with the
    database down it keeps the list shown, shows 'Failed to fetch jobs. Is
    the backend running?' and disables the form. *)
Theorem poll_end_to_end (c : Ctx) (w : World) (s : App.State) :
  exists res w' out,
    handle c GetJobs w = (Ret res, w')
    /\ App.fetchedJobs res = Some out
    /\ db w' = db w
    /\ App.prompt (App.fetchJobs_end out (App.fetchJobs_begin s)) = App.prompt s
    /\ App.isLoading (App.fetchJobs_end out (App.fetchJobs_begin s))
       = App.isLoading s
    /\ if dbUp c then
         App.jobs (App.fetchJobs_end out (App.fetchJobs_begin s))
           = fullView <$> merge_sort createdAt_desc (snd <$> map_to_list (db w))
         /\ App.error (App.fetchJobs_end out (App.fetchJobs_begin s)) = None
         /\ App.formDisabled (App.fetchJobs_end out (App.fetchJobs_begin s))
            = App.isLoading s
       else
         App.jobs (App.fetchJobs_end out (App.fetchJobs_begin s)) = App.jobs s
         /\ App.error (App.fetchJobs_end out (App.fetchJobs_begin s))
            = Some (lit "Failed to fetch jobs. Is the backend running?")
         /\ App.formDisabled (App.fetchJobs_end out (App.fetchJobs_begin s))
            = true.
Proof.
  cbn [handle]. rewrite get_jobs_run. destruct (dbUp c).
  - eexists _, _, (App.Ok _). split; [reflexivity|]. split; [reflexivity|].
    cbn. repeat split. apply orb_false_r.
  - eexists _, _, App.NotOk. split; [reflexivity|]. split; [reflexivity|].
    cbn. repeat split. apply orb_true_r.
Qed.

End Frontend.

Lemma submit_end_to_end_witness :
  App.handleSubmit_body typedForm = Some (lit "summarize X")
  /\ exists res w' out,
       @handle devEnv hexMongoose ctxA (PostJobs (JStr (lit "summarize X")))
         emptyWorld = (Ret res, w')
       /\ App.fetchedJob res = Some out.
Proof.
  assert (Hb : App.handleSubmit_body typedForm = Some (lit "summarize X"))
    by reflexivity.
  split; [exact Hb|].
  destruct (@submit_end_to_end devEnv hexMongoose typedForm _ ctxA emptyWorld Hb)
    as (res & w' & out & Hrun & Hout & _).
  exists res, w', out. split; [exact Hrun | exact Hout].
Defined.

(** ** The two read routes agree *)

Section Agree.
Context {penv : ProcessEnv} {mongoose : Mongoose}.

Lemma listed_views_spec (d : gmap N IJob) (v : JobView) :
  v ∈ fullView <$> merge_sort createdAt_desc (snd <$> map_to_list d)
  <-> exists k job, d !! k = Some job /\ v = fullView job.
Proof.
  rewrite list_elem_of_fmap. split.
  - intros (job & -> & Hin). rewrite merge_sort_Permutation in Hin.
    apply list_elem_of_fmap in Hin as ([k job'] & -> & Hin).
    apply elem_of_map_to_list in Hin. exists k, job'. auto.
  - intros (k & job & Hk & ->). exists job. split; [reflexivity|].
    rewrite merge_sort_Permutation. apply list_elem_of_fmap.
    exists (k, job). split; [reflexivity|]. apply elem_of_map_to_list, Hk.
Qed.

(** X3: after any requests, [GET /jobs/:id] answers 200 with a view
    exactly when [GET /jobs] lists this very view under this identifier:
    the list shows the jobs that can be read one by one, and shows of each
    what the single read shows. *)
Theorem list_and_single_read_agree
    (rs : list (Ctx * Request)) (cOne cAll : Ctx)
    (id : jsstring) (oid : ObjectId) (v : JobView) :
  dbUp cOne = true ->
  dbUp cAll = true ->
  castObjectId (JStr id) = Some oid ->
  fst (handle cOne (GetJob id) (afterAll rs emptyWorld))
    = Ret (mkResponse 200 (JobBody v))
  <-> exists vs,
        fst (handle cAll GetJobs (afterAll rs emptyWorld))
          = Ret (mkResponse 200 (JobsBody vs))
        /\ v ∈ vs /\ view_id v = oid.
Proof.
  intros HupOne HupAll Hcast.
  assert (Hok : forall k j, db (afterAll rs emptyWorld) !! k = Some j -> stored_ok k j).
  { apply afterAll_stored_ok. intros k j Hk. cbn in Hk.
    rewrite lookup_empty in Hk. discriminate. }
  cbn [handle]. rewrite get_job_run, get_jobs_run, Hcast, HupOne, HupAll.
  set (w := afterAll rs emptyWorld) in *. split.
  - destruct (db w !! oid) as [job|] eqn:Hjob; cbn [fst]; intros Hres;
      [|discriminate].
    injection Hres as <-. eexists. split; [reflexivity|]. split.
    + apply listed_views_spec. eauto.
    + cbn. apply (Hok _ _ Hjob).
  - intros (vs & Hvs & Hin & Hid). cbn [fst] in Hvs. injection Hvs as <-.
    apply listed_views_spec in Hin as (k & job & Hk & ->).
    destruct (Hok _ _ Hk) as (Hkey & _). cbn in Hid.
    assert (k = oid) as -> by congruence.
    rewrite Hk. reflexivity.
Qed.

End Agree.

Lemma list_and_single_read_agree_witness :
  @castObjectId hexMongoose (JStr id1) = Some 1%N
  /\ (fst (@handle devEnv hexMongoose ctx2 (GetJob id1)
             (@afterAll devEnv hexMongoose [createX] emptyWorld))
        = Ret (mkResponse 200 (JobBody (fullView job1)))
      <-> exists vs,
            fst (@handle devEnv hexMongoose ctx3 GetJobs
                   (@afterAll devEnv hexMongoose [createX] emptyWorld))
              = Ret (mkResponse 200 (JobsBody vs))
            /\ fullView job1 ∈ vs /\ view_id (fullView job1) = 1%N).
Proof.
  assert (Hcast : @castObjectId hexMongoose (JStr id1) = Some 1%N) by reflexivity.
  split; [exact Hcast|].
  apply (@list_and_single_read_agree devEnv hexMongoose [createX] ctx2 ctx3
           id1 1%N (fullView job1) eq_refl eq_refl Hcast).
Defined.

(** ** Requests that write different jobs *)

Section Commute.
Context {penv : ProcessEnv} {mongoose : Mongoose}.



End Commute.


(** ** The bootstrap *)

Lemma connectLoop_step connectOk retries :
  connectLoop connectOk retries =
    if retries <? maxRetries then
      Connect ::
      (if connectOk retries then [Listen]
       else
         (if retries + 1 <? maxRetries
          then [Wait (backoffDelay (retries + 1))]
          else [])
         ++ connectLoop connectOk (retries + 1))
    else [Exit 1].
Proof.
  rewrite connectLoop_equation_1. unfold connectLoop_unfold_clause_1.
  destruct (Z_lt_dec retries maxRetries) as [Hlt | Hge].
  - apply Z.ltb_lt in Hlt. rewrite Hlt. reflexivity.
  - apply Z.ltb_nlt in Hge. rewrite Hge. reflexivity.
Qed.

Lemma pow2_from_32 n : 5 <= n -> 32 <= 2 ^ n.
Proof.
  intros Hn. change 32 with (2 ^ 5). apply Z.pow_le_mono_r; lia.
Qed.

(** X14: from the first retry on, the delay before the next attempt is at
    least one second and at most thirty; it is 1000 ms doubled with each
    retry for the first five retries (1, 2, 4, 8, 16 seconds) and 30000 ms
    from the sixth on, so it never decreases. *)
Theorem backoff_doubles_then_caps (retries : Z) :
  1 <= retries ->
  1000 <= backoffDelay retries <= 30000
  /\ (retries <= 5 -> backoffDelay retries = 1000 * 2 ^ (retries - 1))
  /\ (6 <= retries -> backoffDelay retries = 30000)
  /\ backoffDelay retries <= backoffDelay (retries + 1).
Proof.
  intros Hr. unfold backoffDelay.
  assert (Hpos : 1 <= 2 ^ (retries - 1)).
  { change 1 with (2 ^ 0) at 1. apply Z.pow_le_mono_r; lia. }
  assert (Hstep : 2 ^ (retries + 1 - 1) = 2 * 2 ^ (retries - 1)).
  { replace (retries + 1 - 1) with (Z.succ (retries - 1)) by lia.
    apply Z.pow_succ_r. lia. }
  assert (Hsmall : retries <= 5 -> 2 ^ (retries - 1) <= 16).
  { intros Hle. change 16 with (2 ^ 4). apply Z.pow_le_mono_r; lia. }
  assert (Hbig : 6 <= retries -> 32 <= 2 ^ (retries - 1)).
  { intros Hge. apply pow2_from_32. lia. }
  rewrite Hstep. repeat split; lia.
Qed.

Lemma backoff_doubles_then_caps_witness :
  1 <= 3 /\ backoffDelay 3 = 1000 * 2 ^ (3 - 1) /\ backoffDelay 3 <= backoffDelay 4.
Proof.
  assert (H3 : 1 <= 3) by lia.
  destruct (backoff_doubles_then_caps 3 H3) as (_ & Hsmall & _ & Hmono).
  split; [exact H3|]. split; [apply Hsmall; lia | exact Hmono].
Defined.

Lemma backoffDelay_nonneg r : 0 <= backoffDelay r.
Proof.
  unfold backoffDelay. apply Z.min_glb; [|lia].
  apply Z.mul_nonneg_nonneg; [lia|]. apply Z.pow_nonneg. lia.
Qed.

Lemma connectLoop_succeeds connectOk (n : nat) (r : Z) :
  0 <= r ->
  r + Z.of_nat n < maxRetries ->
  (forall j, r <= j < r + Z.of_nat n -> connectOk j = false) ->
  connectOk (r + Z.of_nat n) = true ->
  connectLoop connectOk r = failedAttempts n r ++ [Connect; Listen].
Proof.
  revert r. induction n as [|n IH]; intros r Hr Hlt Hfail Hok.
  - rewrite connectLoop_step. replace (r + Z.of_nat 0) with r in * by lia.
    apply Z.ltb_lt in Hlt. rewrite Hlt, Hok. reflexivity.
  - rewrite connectLoop_step.
    assert (Hr30 : (r <? maxRetries) = true) by (apply Z.ltb_lt; lia).
    assert (Hr31 : (r + 1 <? maxRetries) = true) by (apply Z.ltb_lt; lia).
    rewrite Hr30, Hr31, (Hfail r) by lia. simpl.
    rewrite (IH (r + 1)); [reflexivity | lia | lia | |].
    + intros j Hj. apply Hfail. lia.
    + replace (r + 1 + Z.of_nat n) with (r + Z.of_nat (S n)) by lia. exact Hok.
Qed.

Lemma connectLoop_gives_up connectOk (n : nat) (r : Z) :
  0 <= r ->
  r + Z.of_nat n = maxRetries - 1 ->
  (forall j, r <= j < maxRetries -> connectOk j = false) ->
  connectLoop connectOk r = failedAttempts n r ++ [Connect; Exit 1].
Proof.
  revert r. induction n as [|n IH]; intros r Hr Hsum Hfail.
  - rewrite connectLoop_step.
    assert (Hr30 : (r <? maxRetries) = true) by (apply Z.ltb_lt; lia).
    assert (Hr31 : (r + 1 <? maxRetries) = false) by (apply Z.ltb_ge; lia).
    rewrite Hr30, Hr31, (Hfail r) by lia. simpl.
    rewrite connectLoop_step. rewrite Hr31. reflexivity.
  - rewrite connectLoop_step.
    assert (Hr30 : (r <? maxRetries) = true) by (apply Z.ltb_lt; lia).
    assert (Hr31 : (r + 1 <? maxRetries) = true) by (apply Z.ltb_lt; lia).
    rewrite Hr30, Hr31, (Hfail r) by lia. simpl.
    rewrite (IH (r + 1)); [reflexivity | lia | lia |].
    intros j Hj. apply Hfail. lia.
Qed.

(** X15: [startServer] first waits 30 seconds. If the attempt made after
    [k] failures, [k < 30], is the first to succeed, it has then made
    [k + 1] attempts, waited the backoff delay after each failed one, and
    starts to listen, once, without a further attempt. If the first 30
    attempts all fail, it makes exactly these 30, waits between them but
    not after the last, and ends the process with exit code 1, without
    listening. *)
Theorem startServer_listens_or_gives_up (connectOk : Z -> bool) :
  (forall k,
     0 <= k < maxRetries ->
     (forall j, 0 <= j < k -> connectOk j = false) ->
     connectOk k = true ->
     startServer connectOk
       = Wait 30000 :: failedAttempts (Z.to_nat k) 0 ++ [Connect; Listen])
  /\ ((forall j, 0 <= j < maxRetries -> connectOk j = false) ->
      startServer connectOk
        = Wait 30000 :: failedAttempts 29 0 ++ [Connect; Exit 1]).
Proof.
  unfold startServer. split.
  - intros k Hk Hfail Hok. f_equal.
    apply connectLoop_succeeds; rewrite ?Z2Nat.id by lia; try lia.
    + intros j Hj. apply Hfail. lia.
    + replace (0 + k) with k by lia. exact Hok.
  - intros Hfail. f_equal.
    apply connectLoop_gives_up; [lia | reflexivity | exact Hfail].
Qed.

Lemma startServer_listens_or_gives_up_witness :
  (forall j, 0 <= j < 2 -> thirdAttemptOk j = false)
  /\ thirdAttemptOk 2 = true
  /\ startServer thirdAttemptOk
     = [Wait 30000; Connect; Wait 1000; Connect; Wait 2000; Connect; Listen].
Proof.
  assert (Hfail : forall j, 0 <= j < 2 -> thirdAttemptOk j = false).
  { intros j Hj. unfold thirdAttemptOk. apply Z.leb_gt. lia. }
  split; [exact Hfail|]. split; [reflexivity|].
  apply (proj1 (startServer_listens_or_gives_up thirdAttemptOk) 2);
    [unfold maxRetries; lia | exact Hfail | reflexivity].
Defined.

Lemma first_success (connectOk : Z -> bool) (n : nat) :
  (exists k, 0 <= k < Z.of_nat n
             /\ (forall j, 0 <= j < k -> connectOk j = false)
             /\ connectOk k = true)
  \/ (forall j, 0 <= j < Z.of_nat n -> connectOk j = false).
Proof.
  induction n as [|n [(k & Hk & Hfail & Hok) | Hnone]].
  - right. intros j Hj. lia.
  - left. exists k. repeat split; try assumption; lia.
  - destruct (connectOk (Z.of_nat n)) eqn:Hn.
    + left. exists (Z.of_nat n). repeat split; try assumption; lia.
    + right. intros j Hj.
      destruct (decide (j = Z.of_nat n)) as [-> | Hne]; [exact Hn|].
      apply Hnone. lia.
Qed.

Lemma totalWait_app a b : totalWait (a ++ b) = totalWait a + totalWait b.
Proof.
  induction a as [|e a IH]; [reflexivity|].
  cbn [app]. unfold totalWait in *. cbn [foldr]. destruct e; lia.
Qed.

Lemma attempts_app a b : attempts (a ++ b) = attempts a + attempts b.
Proof.
  induction a as [|e a IH]; [reflexivity|].
  cbn [app]. unfold attempts in *. cbn [foldr]. destruct e; lia.
Qed.

Lemma failedAttempts_app n m r :
  failedAttempts (n + m) r
  = failedAttempts n r ++ failedAttempts m (r + Z.of_nat n).
Proof.
  revert r. induction n as [|n IH]; intros r.
  - cbn [Nat.add failedAttempts app]. replace (r + Z.of_nat 0) with r by lia.
    reflexivity.
  - cbn [Nat.add failedAttempts app]. rewrite IH.
    replace (r + Z.of_nat (S n)) with (r + 1 + Z.of_nat n) by lia. reflexivity.
Qed.

Lemma attempts_failedAttempts n r : attempts (failedAttempts n r) = Z.of_nat n.
Proof.
  revert r. induction n as [|n IH]; intros r; [reflexivity|].
  cbn [failedAttempts]. unfold attempts in *. cbn [foldr]. rewrite IH. lia.
Qed.

Lemma totalWait_failedAttempts_nonneg n r : 0 <= totalWait (failedAttempts n r).
Proof.
  revert r. induction n as [|n IH]; intros r; [reflexivity|].
  cbn [failedAttempts]. unfold totalWait in *. cbn [foldr].
  pose proof (backoffDelay_nonneg (r + 1)). specialize (IH (r + 1)). lia.
Qed.

Lemma totalWait_failedAttempts_le (n : nat) :
  (n <= 29)%nat -> totalWait (failedAttempts n 0) <= 751000.
Proof.
  intros Hn.
  assert (Hall : totalWait (failedAttempts 29 0) = 751000) by (vm_compute; reflexivity).
  replace 29%nat with (n + (29 - n))%nat in Hall by lia.
  rewrite failedAttempts_app, totalWait_app in Hall.
  pose proof (totalWait_failedAttempts_nonneg (29 - n) (0 + Z.of_nat n)). lia.
Qed.

(** X16: whatever the database does, [startServer] makes at least one and
    at most 30 connection attempts, and spends at least 30 seconds and at
    most 781 seconds waiting (the initial 30 and the backoff delays). It
    ends by listening, if one of the first 30 attempts succeeded, and
    otherwise by exit code 1 after exactly 30 attempts and 781 seconds of
    waiting. *)
Theorem startServer_is_bounded (connectOk : Z -> bool) :
  1 <= attempts (startServer connectOk) <= 30
  /\ 30000 <= totalWait (startServer connectOk) <= 781000
  /\ ((last (startServer connectOk) = Some Listen
       /\ exists k, 0 <= k < maxRetries /\ connectOk k = true)
      \/ (last (startServer connectOk) = Some (Exit 1)
          /\ (forall j, 0 <= j < maxRetries -> connectOk j = false)
          /\ attempts (startServer connectOk) = 30
          /\ totalWait (startServer connectOk) = 781000)).
Proof.
  unfold startServer.
  destruct (first_success connectOk 30) as [(k & Hk & Hfail & Hok) | Hall].
  - rewrite (connectLoop_succeeds connectOk (Z.to_nat k) 0);
      rewrite ?Z2Nat.id by lia; [| lia | unfold maxRetries; lia | |].
    2: { intros j Hj. apply Hfail. lia. }
    2: { replace (0 + k) with k by lia. exact Hok. }
    change (Wait 30000 :: failedAttempts (Z.to_nat k) 0 ++ [Connect; Listen])
      with ([Wait 30000] ++ failedAttempts (Z.to_nat k) 0 ++ [Connect; Listen]).
    rewrite !attempts_app, !totalWait_app, attempts_failedAttempts.
    pose proof (totalWait_failedAttempts_nonneg (Z.to_nat k) 0) as Hlo.
    assert (Hhi : totalWait (failedAttempts (Z.to_nat k) 0) <= 751000)
      by (apply totalWait_failedAttempts_le; lia).
    change (attempts [Wait 30000]) with 0.
    change (attempts [Connect; Listen]) with 1.
    change (totalWait [Wait 30000]) with 30000.
    change (totalWait [Connect; Listen]) with 0.
    split; [lia|]. split; [lia|]. left. split.
    + rewrite !app_assoc.
      change [Connect; Listen] with ([Connect] ++ [Listen]).
      rewrite !app_assoc. apply last_snoc.
    + exists k. split; [exact Hk | exact Hok].
  - rewrite (connectLoop_gives_up connectOk 29 0); [| lia | reflexivity | exact Hall].
    vm_compute. split; [split; discriminate|].
    split; [split; discriminate|]. right. repeat split; try reflexivity.
    exact Hall.
Qed.
